(** * biomedical_ner.py: conversion script and smoke test

    A shallow embedding of [biomedical-ner/biomedical_ner.py].  The script
    loads a token-classification model, traces and converts it, writes three
    JSON side files and then reloads the package and decodes one sample
    sentence.

    Numbers: NumPy floats are idealised as mathematical reals ([R]); Python
    integers are [Z]; list and array positions are [nat].  The third-party
    collaborators (model hub, tracer, converter, Core ML runtime, file
    system) are fields of a record [Env]; every call into them may raise. *)

From Stdlib Require Import Reals Lra DecimalString DecimalPos DecimalZ.
From stdpp Require Import base option list gmap strings fin_maps.

Open Scope string_scope.

(** ** Python exceptions and results *)

(** An exception object deriving from [Exception]: its class name and the
    text [str(e)] gives.  Asynchronous [BaseException]s (keyboard
    interrupt, interpreter exit) are outside the model, and so is a failure
    of [print] itself (a closed standard output). *)
Record exn : Type := Exn { exn_class : string; exn_str : string }.

Inductive Res (A : Type) : Type :=
| Ok (a : A)
| Raise (e : exn).
Arguments Ok {A} a.
Arguments Raise {A} e.

Definition res_bind {A B} (r : Res A) (f : A -> Res B) : Res B :=
  match r with
  | Ok a => f a
  | Raise e => Raise e
  end.

Definition ValueError (msg : string) : exn := Exn "ValueError" msg.
Definition IndexError (msg : string) : exn := Exn "IndexError" msg.
Definition KeyError (key : string) : exn := Exn "KeyError" ("'" ++ key ++ "'").
Definition NameError (name : string) : exn :=
  Exn "NameError" ("name '" ++ name ++ "' is not defined").
Definition TypeError (msg : string) : exn := Exn "TypeError" msg.

(** ** NumPy reductions on one score vector *)

Module Np.

Open Scope R_scope.

(** [np.max(x)]: raises on a zero-size array. *)
Definition max (x : list R) : Res R :=
  match x with
  | [] => Raise (ValueError
      "zero-size array to reduction operation maximum which has no identity")
  | a :: l => Ok (fold_left Rmax l a)
  end.

(** [np.sum(x)]. *)
Definition sum (x : list R) : R := fold_right Rplus 0 x.

(** First position of the largest element, scanning left to right;
    [best_i]/[best] is the running candidate and [i] the next position. *)
Fixpoint argmax_from (best_i : nat) (best : R) (i : nat) (l : list R) : nat :=
  match l with
  | [] => best_i
  | x :: l' =>
      if Rlt_dec best x then argmax_from i x (S i) l'
      else argmax_from best_i best (S i) l'
  end.

(** [np.argmax(x)] on one vector: raises on an empty sequence. *)
Definition argmax (x : list R) : Res nat :=
  match x with
  | [] => Raise (ValueError "attempt to get argmax of an empty sequence")
  | a :: l => Ok (argmax_from 0 a 1 l)
  end.

End Np.

(** ** [softmax] (lines 232-235) *)

(** [exp_x = np.exp(x - np.max(x)); return exp_x / np.sum(exp_x)], with
    NumPy's floating-point operations idealised as the operations of the
    real numbers: rounding, overflow and the special values (infinities,
    NaN) are not represented, so a statement about this function is a
    statement over the reals. *)
Definition softmax (x : list R) : Res (list R) :=
  res_bind (Np.max x) (fun m =>
    let exp_x := map (fun xi => exp (xi - m)) x in
    Ok (map (fun e => e / Np.sum exp_x) exp_x))%R.

(** The textbook definition the implementation is compared with:
    component [i] is [exp x_i / sum_j exp x_j]. *)
Definition textbook_softmax (x : list R) : list R :=
  map (fun xi => exp xi / Np.sum (map exp x))%R x.

(** ** Decimal rendering of integers: [str(k)] and [int(k)] *)

Definition py_str (z : Z) : string := NilZero.string_of_int (Z.to_int z).

(** [int(s)] on decimal literals: an optional minus sign and ASCII digits,
    which is what [json.dump] writes for integer keys; a result [Ok z] is
    the integer Python returns.  Python's [int] also accepts other
    spellings (a plus sign, surrounding white space, underscores between
    digits, non-ASCII digits); they raise here, so nothing is concluded
    from a [Raise] of this function. *)
Definition py_int (s : string) : Res Z :=
  match NilZero.int_of_string s with
  | Some d => Ok (Z.of_int d)
  | None => Raise (ValueError ("invalid literal for int() with base 10: '" ++ s ++ "'"))
  end.

(** ** Arrays *)

(** A rank-2 array: its shape and the element at a position. *)
Record matrix (A : Type) : Type :=
  Matrix { rows : nat; cols : nat; at2 : nat -> nat -> A }.
Arguments Matrix {A} rows cols at2.
Arguments rows {A} m.
Arguments cols {A} m.
Arguments at2 {A} m i j.

(** A rank-3 array of scores, [(batch, sequence, classes)]. *)
Record tensor3 : Type :=
  Tensor3 { dim0 : nat; dim1 : nat; dim2 : nat; at3 : nat -> nat -> nat -> R }.

Definition shape2 {A} (m : matrix A) : list nat := [rows m; cols m].
Definition shape3 (t : tensor3) : list nat := [dim0 t; dim1 t; dim2 t].

(** NumPy's [IndexError] for position [i] on a first axis of [size]
    entries. *)
Definition index_out_of_bounds (i size : nat) : exn :=
  IndexError ("index " ++ py_str (Z.of_nat i)
              ++ " is out of bounds for axis 0 with size "
              ++ py_str (Z.of_nat size)).

(** [t[0]] on a rank-3 array. *)
Definition tensor_first (t : tensor3) : Res (matrix R) :=
  if decide (0 < dim0 t) then Ok (Matrix (dim1 t) (dim2 t) (at3 t 0))
  else Raise (index_out_of_bounds 0 (dim0 t)).

(** [m[i]] on a rank-2 array: row [i] as a vector. *)
Definition matrix_row {A} (m : matrix A) (i : nat) : Res (list A) :=
  if decide (i < rows m) then Ok (map (at2 m i) (seq 0 (cols m)))
  else Raise (index_out_of_bounds i (rows m)).

Fixpoint res_mapM {A B} (f : A -> Res B) (l : list A) : Res (list B) :=
  match l with
  | [] => Ok []
  | a :: l' =>
      res_bind (f a) (fun b => res_bind (res_mapM f l') (fun bs => Ok (b :: bs)))
  end.

(** [np.argmax(m, axis=-1)]: one class index per row; NumPy refuses a
    reduction axis of size zero whatever the number of rows. *)
Definition argmax_last_axis (m : matrix R) : Res (list nat) :=
  if decide (cols m = 0) then
    Raise (ValueError "attempt to get argmax of an empty sequence")
  else
    res_mapM (fun i => res_bind (matrix_row m i) Np.argmax) (seq 0 (rows m)).

(** [torch.ones(r, c)]. *)
Definition torch_ones (r c : nat) : matrix R := Matrix r c (fun _ _ => 1%R).

(** ** Data model *)

(** The attributes of [model.config] the script reads. *)
Record Config : Type := {
  id2label : gmap Z string;
  label2id : gmap string Z;
  num_labels : nat
}.

(** The structured output of the underlying model: the score tensor and
    whatever auxiliary tensors the model also returns. *)
Record ModelOutput : Type := {
  logits : tensor3;
  auxiliary : list tensor3
}.

Record Model : Type := {
  config : Config;
  forward : matrix Z -> matrix R -> Res ModelOutput
}.

Record Encoding : Type := {
  enc_input_ids : matrix Z;
  enc_attention_mask : matrix Z
}.

Record Tokenizer : Type := {
  get_vocab : gmap string Z;
  vocab_size : Z;
  cls_token : option string;
  sep_token : option string;
  pad_token : option string;
  unk_token : option string;
  mask_token : option string;
  cls_token_id : option Z;
  sep_token_id : option Z;
  pad_token_id : option Z;
  unk_token_id : option Z;
  mask_token_id : option Z;
  model_max_length : Z;
  (** [tokenizer(text, padding="max_length", truncation=True,
      max_length=n, return_tensors="np")] *)
  encode_padded : string -> nat -> Res Encoding;
  convert_ids_to_tokens : list Z -> Res (list string)
}.

Inductive dtype : Type := int32 | float32.

(** [ct.TensorType(name=..., shape=..., dtype=...)]; omitted arguments
    are [None]. *)
Record TensorType : Type := {
  tt_name : string;
  tt_shape : option (list nat);
  tt_dtype : option dtype
}.

(** The module [torch.jit.trace] returns. *)
Record Traced : Type := {
  traced_forward : matrix Z -> matrix R -> Res tensor3
}.

(** A Core ML model object: tensor descriptions, metadata and the
    prediction entry point. *)
Record MLModel : Type := {
  input_spec : list TensorType;
  output_spec : list TensorType;
  predict : gmap string (matrix Z) -> Res (gmap string tensor3);
  short_description : string;
  author : string;
  license : string;
  version : string;
  input_description : gmap string string;
  output_description : gmap string string
}.

(** [labels.json]: JSON object keys are strings, so the integer keys of
    [id2label] are written in decimal. *)
Record LabelsJson : Type := {
  j_id2label : gmap string string;
  j_label2id : gmap string Z;
  j_num_labels : nat
}.

(** [special_tokens.json]. *)
Record SpecialTokensJson : Type := {
  j_cls_token : option string;
  j_sep_token : option string;
  j_pad_token : option string;
  j_unk_token : option string;
  j_mask_token : option string;
  j_cls_token_id : option Z;
  j_sep_token_id : option Z;
  j_pad_token_id : option Z;
  j_unk_token_id : option Z;
  j_mask_token_id : option Z;
  j_max_length : Z
}.

(** The content of a file of the working directory; [FPartial] is a file
    that a failed write left truncated or half written. *)
Inductive file : Type :=
| FPackage (m : MLModel)
| FVocab (v : gmap string Z)
| FLabels (l : LabelsJson)
| FSpecialTokens (s : SpecialTokensJson)
| FPartial.

(** ** The process state and the outside world *)

(** Files of the working directory and the state of torch's global random
    generator. *)
Record World : Type := {
  fs : gmap string file;
  rng : Z
}.

(** The external collaborators.  Each is an arbitrary function of its
    arguments: a theorem quantified over [Env] holds whatever value or
    exception each call returns.  What the record fixes by its types is an
    assumption of the model: apart from [torch_randint] no library call
    reads or advances torch's generator, only [fs_write] changes the
    working directory, and a call repeated on the same arguments returns
    the same result. *)
Record Env : Type := {
  (** The [import] statements of lines 7-10, by module name. *)
  import_module : string -> Res unit;
  AutoTokenizer_from_pretrained : string -> Res Tokenizer;
  AutoModelForTokenClassification_from_pretrained : string -> Res Model;
  (** [torch.randint(low, high, (r, c))] from generator state [g]. *)
  torch_randint : Z -> Z -> Z -> nat -> nat -> Res (matrix Z) * Z;
  torch_jit_trace :
    (matrix Z -> matrix R -> Res tensor3) -> matrix Z -> matrix R -> Res Traced;
  ct_convert :
    Traced -> list TensorType -> list TensorType -> string -> string -> Res MLModel;
  (** Writing a file: the new directory content, or an error. *)
  fs_write : gmap string file -> string -> file -> Res (gmap string file);
  (** The directory a failed write leaves behind: [open(path, "w")] may
      already have created or truncated the file, and [json.dump] may have
      written a part of it. *)
  fs_write_failed : gmap string file -> string -> file -> gmap string file;
  (** Reading a file back. *)
  fs_read : gmap string file -> string -> Res file
}.

(** ** Printed output *)

(** One formatted value of an f-string.  Field widths and the [.3f]
    precision are presentation only and are not rendered. *)
Inductive piece : Type :=
| Lit (s : string)
| Str (s : string)
| Num (n : Z)
| Flt (r : R)
| Err (e : exn)
| Shape (l : list nat)
| Obj (what : string).

(** One [print] call. *)
Definition msg : Type := list piece.

(** ** The program monad: state, output and exceptions *)

Record Outcome (A : Type) : Type := {
  result : Res A;
  final : World;
  printed : list msg
}.
Arguments result {A} o.
Arguments final {A} o.
Arguments printed {A} o.

Definition Py (A : Type) : Type := World -> Outcome A.

Definition py_ret {A} (a : A) : Py A :=
  fun w => {| result := Ok a; final := w; printed := [] |}.

Definition py_bind {A B} (f : A -> Py B) (m : Py A) : Py B :=
  fun w =>
    let o := m w in
    match result o with
    | Ok a =>
        let o' := f a (final o) in
        {| result := result o'; final := final o';
           printed := printed o ++ printed o' |}
    | Raise e => {| result := Raise e; final := final o; printed := printed o |}
    end.

#[global] Instance Py_ret : MRet Py := @py_ret.
#[global] Instance Py_bind : MBind Py := @py_bind.

(** A pure computation that may raise. *)
Definition lift {A} (r : Res A) : Py A :=
  fun w => {| result := r; final := w; printed := [] |}.

Definition print (m : msg) : Py unit :=
  fun w => {| result := Ok tt; final := w; printed := [m] |}.

(** [try: body  except Exception as e: handler e] *)
Definition try_except {A} (body : Py A) (handler : exn -> Py A) : Py A :=
  fun w =>
    let o := body w in
    match result o with
    | Ok a => o
    | Raise e =>
        let o' := handler e (final o) in
        {| result := result o'; final := final o';
           printed := printed o ++ printed o' |}
    end.

(** I/O through the environment. *)
Definition write_file (env : Env) (path : string) (content : file) : Py unit :=
  fun w =>
    match fs_write env (fs w) path content with
    | Ok fs' => {| result := Ok tt; final := {| fs := fs'; rng := rng w |};
                   printed := [] |}
    | Raise e =>
        {| result := Raise e;
           final := {| fs := fs_write_failed env (fs w) path content;
                       rng := rng w |};
           printed := [] |}
    end.

Definition read_file (env : Env) (path : string) : Py file :=
  fun w => {| result := fs_read env (fs w) path; final := w; printed := [] |}.

Definition randint (env : Env) (low high : Z) (r c : nat) : Py (matrix Z) :=
  fun w =>
    let '(t, g) := torch_randint env (rng w) low high r c in
    {| result := t; final := {| fs := fs w; rng := g |}; printed := [] |}.

(** ** [save_tokenizer_info], first half: the side files (lines 107-147) *)

Definition newline : string := String (Ascii.ascii_of_nat 10) "".

Fixpoint string_times (s : string) (n : nat) : string :=
  match n with
  | O => ""
  | S n' => s ++ string_times s n'
  end.

(** [json.dump] of the [label_info] dictionary: [id2label] has integer
    keys, which JSON writes as decimal strings; [label2id] and
    [num_labels] are written as they are. *)
Definition json_dump_labels (c : Config) : LabelsJson :=
  {| j_id2label := kmap (M2 := gmap string) py_str (id2label c);
     j_label2id := label2id c;
     j_num_labels := num_labels c |}.

Definition special_tokens (tokenizer : Tokenizer) : SpecialTokensJson :=
  {| j_cls_token := cls_token tokenizer;
     j_sep_token := sep_token tokenizer;
     j_pad_token := pad_token tokenizer;
     j_unk_token := unk_token tokenizer;
     j_mask_token := mask_token tokenizer;
     j_cls_token_id := cls_token_id tokenizer;
     j_sep_token_id := sep_token_id tokenizer;
     j_pad_token_id := pad_token_id tokenizer;
     j_unk_token_id := unk_token_id tokenizer;
     j_mask_token_id := mask_token_id tokenizer;
     j_max_length := model_max_length tokenizer |}.

Definition write_side_files (env : Env) (tokenizer : Tokenizer) (c : Config)
  : Py unit :=
  let vocab_dict := get_vocab tokenizer in
  write_file env "vocab.json" (FVocab vocab_dict);;
  write_file env "labels.json" (FLabels (json_dump_labels c));;
  write_file env "special_tokens.json" (FSpecialTokens (special_tokens tokenizer));;
  print [Lit "Tokenizer info saved:"];;
  print [Lit "- vocab.json (vocabulary mapping)"];;
  print [Lit "- labels.json (entity label mappings)"];;
  print [Lit "- special_tokens.json (special token info)"].

(** ** [save_tokenizer_info], second half: the smoke test (lines 149-230) *)

Definition sample_text : string :=
  "Take 25mg of Lisinopril twice daily for hypertension".

(** [{int(k): v for k, v in label_data["id2label"].items()}] *)
Definition load_id2label (l : LabelsJson) : Res (gmap Z string) :=
  foldl (fun acc kv =>
           res_bind acc (fun d =>
           res_bind (py_int kv.1) (fun z => Ok (<[z := kv.2]> d))))
        (Ok ∅) (map_to_list (j_id2label l)).

(** The literal list of line 201. *)
Definition skipped_tokens : list string := ["[CLS]"; "[SEP]"; "[PAD]"].

(** The no-entity class and the threshold of line 210. *)
Definition no_entity_label : string := "O".
Definition confidence_threshold : R := (5 / 10)%R.

Definition entity : Type := string * string * R.

#[global] Instance Rgt_decision (a b : R) : Decision (a > b)%R := Rgt_dec a b.

(** The f-string of line 207. *)
Definition token_line (token label : string) (confidence : R) : msg :=
  [Str token; Lit " -> "; Str label; Lit " (confidence: "; Flt confidence;
   Lit ")"].

(** [np.max(softmax(logits[0][i]))] *)
Definition token_confidence (logits : tensor3) (i : nat) : Res R :=
  res_bind (tensor_first logits) (fun logits0 =>
  res_bind (matrix_row logits0 i) (fun scores =>
  res_bind (softmax scores) Np.max)).

(** The body of the [for] loop of lines 200-211, over the remaining
    [(i, (token, label_id))] items, threading [entities_found]. *)
Fixpoint token_loop (id2label : gmap Z string) (logits : tensor3)
    (items : list (nat * (string * nat))) (entities_found : list entity)
  : Py (list entity) :=
  match items with
  | [] => mret entities_found
  | (i, (token, label_id)) :: rest =>
      if bool_decide (token ∈ skipped_tokens) then
        token_loop id2label logits rest entities_found
      else
        let label := default "UNKNOWN" (id2label !! Z.of_nat label_id) in
        confidence ← lift (token_confidence logits i);
        print (token_line token label confidence);;
        if bool_decide (label ≠ no_entity_label)
           && bool_decide (confidence > confidence_threshold)%R
        then token_loop id2label logits rest
               (entities_found ++ [(token, label, confidence)])
        else token_loop id2label logits rest entities_found
  end.

Definition enumerate {A} (l : list A) : list (nat * A) :=
  zip (seq 0 (length l)) l.

Fixpoint print_entities (entities_found : list entity) : Py unit :=
  match entities_found with
  | [] => mret tt
  | (token, label, conf) :: rest =>
      print [Lit "  '"; Str token; Lit "' -> "; Str label; Lit " (";
             Flt conf; Lit ")"];;
      print_entities rest
  end.

(** The body of the [try] block (lines 184-223). *)
Definition predict_and_decode (model : MLModel) (tokenizer : Tokenizer)
    (id2label : gmap Z string) (encoded : Encoding)
    (input_ids attention_mask : matrix Z) : Py unit :=
  prediction ← lift (predict model
    (<["input_ids" := input_ids]> (<["attention_mask" := attention_mask]> ∅)));
  logits ← lift (match prediction !! "logits" with
                 | Some t => Ok t
                 | None => Raise (KeyError "logits")
                 end);
  print [Lit "Prediction successful! Logits shape: "; Shape (shape3 logits)];;
  logits0 ← lift (tensor_first logits);
  predicted_labels ← lift (argmax_last_axis logits0);
  ids0 ← lift (matrix_row (enc_input_ids encoded) 0);
  tokens ← lift (convert_ids_to_tokens tokenizer ids0);
  print [Lit (newline ++ "Token predictions:")];;
  print [Lit (string_times "-" 50)];;
  entities_found ←
    token_loop id2label logits (enumerate (zip tokens predicted_labels)) [];
  print [Lit (newline ++ "Entities found: ");
         Num (Z.of_nat (length entities_found))];;
  print_entities entities_found;;
  match entities_found with
  | [] =>
      print [Lit "  No high-confidence entities detected"];;
      print [Lit "  This might indicate:"];;
      print [Lit "  - Model needs fine-tuning on prescription text"];;
      print [Lit "  - Confidence threshold is too high"];;
      print [Lit "  - Text format differs from training data"]
  | _ :: _ => mret tt
  end.

(** The [except Exception as e] handler (lines 225-230). *)
Definition prediction_failed (e : exn) : Py unit :=
  print [Lit "Prediction failed: "; Err e];;
  print [Lit "This might indicate:"];;
  print [Lit "- Input shape mismatch"];;
  print [Lit "- Model conversion issues"];;
  print [Lit "- Core ML compatibility problems"].

(** Lines 155-180, executed before the [try] statement is entered. *)
Definition package_path : string := "BiomedicalNER.mlpackage".
Definition hub_name : string := "d4data/biomedical-ner-all".

Definition load_package (env : Env) (path : string) : Py MLModel :=
  f ← read_file env path;
  match f with
  | FPackage m => mret m
  | _ => lift (Raise (Exn "RuntimeError" "not a valid model package"))
  end.

Definition load_labels (env : Env) : Py (gmap Z string) :=
  f ← read_file env "labels.json";
  match f with
  | FLabels label_data => lift (load_id2label label_data)
  | _ => lift (Raise (KeyError "id2label"))
  end.

Definition smoke_test (env : Env) : Py unit :=
  model ← load_package env package_path;
  tokenizer ← lift (AutoTokenizer_from_pretrained env hub_name);
  id2label ← load_labels env;
  print [Lit (newline ++ "Testing with sample text: '"); Str sample_text;
         Lit "'"];;
  encoded ← lift (encode_padded tokenizer sample_text 512);
  print [Obj "encoded"];;
  let input_ids := enc_input_ids encoded in
  let attention_mask := enc_attention_mask encoded in
  try_except
    (predict_and_decode model tokenizer id2label encoded input_ids attention_mask)
    prediction_failed.

(** [save_tokenizer_info(tokenizer, config)]: the side files, then, in the
    same function body, the smoke test. *)
Definition save_tokenizer_info (env : Env) (tokenizer : Tokenizer) (c : Config)
  : Py unit :=
  write_side_files env tokenizer c;;
  smoke_test env.

(** ** [convert_biomedical_ner_to_coreml] (lines 12-105) *)

Definition max_sequence_length : nat := 512.

(** [NERModelWrapper.forward]: only [outputs.logits] is returned. *)
Definition NERModelWrapper_forward (original_model : Model)
    (input_ids : matrix Z) (attention_mask : matrix R) : Res tensor3 :=
  res_bind (forward original_model input_ids attention_mask)
           (fun outputs => Ok (logits outputs)).

Definition input_types : list TensorType :=
  [ {| tt_name := "input_ids";
       tt_shape := Some [1; max_sequence_length];
       tt_dtype := Some int32 |};
    {| tt_name := "attention_mask";
       tt_shape := Some [1; max_sequence_length];
       tt_dtype := Some int32 |} ].

Definition output_types : list TensorType :=
  [ {| tt_name := "logits"; tt_shape := None; tt_dtype := None |} ].

(** Step 6: the metadata assignments. *)
Definition add_metadata (m : MLModel) : MLModel :=
  {| input_spec := input_spec m;
     output_spec := output_spec m;
     predict := predict m;
     short_description := "Biomedical Named Entity Recognition";
     author := "d4data/biomedical-ner-all via Hugging Face";
     license := "Check original model license";
     version := "1.0";
     input_description :=
       <["attention_mask" := "Attention mask for input tokens"]>
         (<["input_ids" := "Tokenized input text (BERT tokens)"]>
            (input_description m));
     output_description :=
       <["logits" := "Raw logits for each token classification"]>
         (output_description m) |}.

Definition convert_biomedical_ner_to_coreml (env : Env) : Py MLModel :=
  let model_name := hub_name in
  print [Lit "Loading model: "; Str model_name];;
  tokenizer ← lift (AutoTokenizer_from_pretrained env model_name);
  model ← lift (AutoModelForTokenClassification_from_pretrained env model_name);
  print [Lit "Model config: "; Obj "model.config"];;
  print [Lit "Number of labels: "; Num (Z.of_nat (num_labels (config model)))];;
  print [Lit "Label mapping: "; Obj "model.config.id2label"];;
  input_ids ← randint env 0 (vocab_size tokenizer) 1 max_sequence_length;
  let attention_mask := torch_ones 1 max_sequence_length in
  let wrapped_model := NERModelWrapper_forward model in
  print [Lit "Tracing wrapped PyTorch model..."];;
  traced_model ← lift (torch_jit_trace env wrapped_model input_ids attention_mask);
  print [Lit "Converting to Core ML..."];;
  coreml_model ← lift (ct_convert env traced_model input_types output_types
                         "iOS18" "ALL");
  let coreml_model := add_metadata coreml_model in
  let output_path := package_path in
  write_file env output_path (FPackage coreml_model);;
  print [Lit "Core ML model saved to: "; Str output_path];;
  save_tokenizer_info env tokenizer (config model);;
  mret coreml_model.

(** ** The [__main__] block (lines 237-251) *)

(** Names bound in the module's namespace when the [__main__] block runs:
    the imports of lines 7-10, the three [def] statements and the
    assignment of line 243.  The imports inside [save_tokenizer_info] are
    local to that function. *)
Definition module_globals : list string :=
  [ "ct"; "torch"; "AutoTokenizer"; "AutoModelForTokenClassification"; "np";
    "convert_biomedical_ner_to_coreml"; "save_tokenizer_info"; "softmax";
    "coreml_model" ].

(** The built-in names the script refers to. *)
Definition builtins : list string :=
  [ "print"; "open"; "int"; "len"; "enumerate"; "zip"; "super"; "Exception" ].

(** Evaluating a bare name: globals, then built-ins, else [NameError]. *)
Definition load_name (name : string) : Py unit :=
  if bool_decide (name ∈ (module_globals ++ builtins)%list) then mret tt
  else lift (Raise (NameError name)).

(** Calling a module-level name with no arguments. *)
Definition call_no_args (env : Env) (name : string) : Py unit :=
  load_name name;;
  if bool_decide (name = "convert_biomedical_ner_to_coreml") then
    convert_biomedical_ner_to_coreml env;; mret tt
  else
    lift (Raise (TypeError ("'" ++ name ++ "' cannot be called without arguments"))).

(** The top-level handler (lines 249-251). *)
Definition conversion_failed (e : exn) : Py unit :=
  print [Lit "Error during conversion: "; Err e];;
  print [Lit "Make sure you have installed: torch, transformers, coremltools"].

Definition main (env : Env) : Py unit :=
  try_except
    (print [Lit "Starting biomedical NER model conversion..."];;
     coreml_model ← convert_biomedical_ner_to_coreml env;
     print [Lit "Conversion completed successfully!"];;
     call_no_args env "test_conversion")
    conversion_failed.

(** The whole module, run as a script: the imports of lines 7-10, which
    are outside every [try] statement, the three [def] statements, which
    cannot fail, and the [__main__] block. *)
Definition module_imports : list string :=
  ["coremltools"; "torch"; "transformers"; "numpy"].

Fixpoint run_imports (env : Env) (names : list string) : Py unit :=
  match names with
  | [] => mret tt
  | name :: rest => lift (import_module env name);; run_imports env rest
  end.

Definition script (env : Env) : Py unit :=
  run_imports env module_imports;;
  main env.

(** ** Predicates used in the statements *)

(** What one item contributes to [entities_found]. *)
Definition collects (id2label : gmap Z string) (t : tensor3)
    (it : nat * (string * nat)) (e : entity) : Prop :=
  (it.2.1 ∉ skipped_tokens) /\
  default "UNKNOWN" (id2label !! Z.of_nat it.2.2) <> no_entity_label /\
  exists c, token_confidence t it.1 = Ok c /\ (c > confidence_threshold)%R /\
    e = (it.2.1, default "UNKNOWN" (id2label !! Z.of_nat it.2.2), c).

(** What one item contributes to the printed report. *)
Definition reports (id2label : gmap Z string) (t : tensor3)
    (it : nat * (string * nat)) (m : msg) : Prop :=
  (it.2.1 ∉ skipped_tokens) /\
  exists c, token_confidence t it.1 = Ok c /\
    m = token_line it.2.1 (default "UNKNOWN" (id2label !! Z.of_nat it.2.2)) c.

(** The five reserved tokens the tokenizer declares. *)
Definition tokenizer_special_tokens (tokenizer : Tokenizer) : list (option string) :=
  [ cls_token tokenizer; sep_token tokenizer; pad_token tokenizer;
    unk_token tokenizer; mask_token tokenizer ].

(** [label2id[id2label[id]] == id] on the tables of a configuration, and on
    the tables of [labels.json], whose [id2label] keys are decimal strings. *)
Definition config_roundtrip (c : Config) : Prop :=
  forall (id : Z) (label : string),
    id2label c !! id = Some label -> label2id c !! label = Some id.

Definition labels_roundtrip (l : LabelsJson) : Prop :=
  forall (id : Z) (label : string),
    j_id2label l !! py_str id = Some label -> j_label2id l !! label = Some id.

(** What the script relies on from the tool chain for the shape of the
    converted output.  None of this is code of the script. *)
Record toolchain_contract (env : Env) (model : Model) : Prop := {
  (** A token-classification head scores [num_labels] classes at every
      position of every sequence of the batch. *)
  model_shape : forall ids mask out,
    forward model ids mask = Ok out ->
    shape3 (logits out) = [rows ids; cols ids; num_labels (config model)];
  (** [torch.randint] returns a tensor of the requested size. *)
  randint_shape : forall g lo hi r c t g',
    torch_randint env g lo hi r c = (Ok t, g') -> shape2 t = [r; c];
  (** Tracing runs the wrapped model once on the example inputs; the
      recorded graph has the output shape of that run for inputs of that
      shape. *)
  trace_shape : forall a b tr,
    torch_jit_trace env (NERModelWrapper_forward model) a b = Ok tr ->
    exists out, NERModelWrapper_forward model a b = Ok out /\
      forall (a' : matrix Z) (b' : matrix R) out',
        shape2 a' = shape2 a -> shape2 b' = shape2 b ->
        traced_forward tr a' b' = Ok out' -> shape3 out' = shape3 out;
  (** Conversion keeps the requested output names and, where no shape is
      given, declares the shape the graph produces on inputs of the
      declared input shapes. *)
  convert_shape : forall tr ins outs target units pkg,
    ct_convert env tr ins outs target units = Ok pkg ->
    exists (a : matrix Z) (b : matrix R) out,
      Some (shape2 a) = (ins !! 0%nat) ≫= tt_shape /\
      Some (shape2 b) = (ins !! 1%nat) ≫= tt_shape /\
      traced_forward tr a b = Ok out /\
      Forall2 (fun o d => tt_name d = tt_name o /\
                          tt_shape d = Some (default (shape3 out) (tt_shape o)))
              outs (output_spec pkg)
}.

(** A computation that leaves the files and the random generator as it
    found them. *)
Definition world_preserving {A} (m : Py A) : Prop :=
  forall w : World, final (m w) = w.

(** What the loop of lines 200-211 does with one item, as a function: the
    line it prints, and the entity it appends, if any. *)
Definition report_of (id2label : gmap Z string) (t : tensor3)
    (it : nat * (string * nat)) : option msg :=
  if bool_decide (it.2.1 ∈ skipped_tokens) then None
  else match token_confidence t it.1 with
       | Ok c => Some (token_line it.2.1
                         (default "UNKNOWN" (id2label !! Z.of_nat it.2.2)) c)
       | Raise _ => None
       end.

Definition entity_of (id2label : gmap Z string) (t : tensor3)
    (it : nat * (string * nat)) : option entity :=
  if bool_decide (it.2.1 ∈ skipped_tokens) then None
  else match token_confidence t it.1 with
       | Ok c =>
           let label := default "UNKNOWN" (id2label !! Z.of_nat it.2.2) in
           if bool_decide (label ≠ no_entity_label)
              && bool_decide (c > confidence_threshold)%R
           then Some (it.2.1, label, c) else None
       | Raise _ => None
       end.

(** The f-string of line 216. *)
Definition entity_line (e : entity) : msg :=
  [Lit "  '"; Str e.1.1; Lit "' -> "; Str e.1.2; Lit " ("; Flt e.2; Lit ")"].

(** The dictionary passed to [model.predict] (lines 184-187). *)
Definition predict_inputs (input_ids attention_mask : matrix Z)
  : gmap string (matrix Z) :=
  <["input_ids" := input_ids]> (<["attention_mask" := attention_mask]> ∅).

(** ** A small concrete world *)

Module Sample.

Definition tiny_config : Config :=
  {| id2label := <[0%Z := "O"]> (<[1%Z := "B-Medication"]> ∅);
     label2id := <["O" := 0%Z]> (<["B-Medication" := 1%Z]> ∅);
     num_labels := 2 |}.

(** Two ids carry the same label: the tables are not inverse to each
    other. *)
Definition merged_config : Config :=
  {| id2label := <[0%Z := "O"]> (<[1%Z := "O"]> ∅);
     label2id := <["O" := 0%Z]> ∅;
     num_labels := 2 |}.

Definition bert_vocab : list (string * Z) :=
  [ ("[PAD]", 0%Z); ("[UNK]", 100%Z); ("[CLS]", 101%Z); ("[SEP]", 102%Z);
    ("[MASK]", 103%Z) ].

Definition token_of_id (id : Z) : Res string :=
  match filter (fun kv : string * Z => kv.2 = id) bert_vocab with
  | kv :: _ => Ok kv.1
  | [] => Raise (KeyError (py_str id))
  end.

(** A tokenizer whose vocabulary holds the reserved tokens only: every
    word of a sentence becomes the unknown token; here one unknown token
    stands for the sentence. *)
Definition bert_tokenizer : Tokenizer :=
  {| get_vocab := list_to_map bert_vocab;
     vocab_size := 5;
     cls_token := Some "[CLS]";
     sep_token := Some "[SEP]";
     pad_token := Some "[PAD]";
     unk_token := Some "[UNK]";
     mask_token := Some "[MASK]";
     cls_token_id := Some 101%Z;
     sep_token_id := Some 102%Z;
     pad_token_id := Some 0%Z;
     unk_token_id := Some 100%Z;
     mask_token_id := Some 103%Z;
     model_max_length := 512;
     encode_padded := fun _ n =>
       Ok {| enc_input_ids :=
               Matrix 1 n (fun _ j => nth j [101%Z; 100%Z; 102%Z] 0%Z);
             enc_attention_mask :=
               Matrix 1 n (fun _ j => nth j [1%Z; 1%Z; 1%Z] 0%Z) |};
     convert_ids_to_tokens := res_mapM token_of_id |}.

(** Every position scores class 1 above class 0. *)
Definition tiny_model : Model :=
  {| config := tiny_config;
     forward := fun ids _ =>
       Ok {| logits := Tensor3 (rows ids) (cols ids) 2
                         (fun _ _ c => match c with O => 0%R | _ => 1%R end);
             auxiliary := [] |} |}.

Definition FileNotFoundError (path : string) : exn :=
  Exn "FileNotFoundError" ("No such file or directory: '" ++ path ++ "'").

Definition posix_write (files : gmap string file) (path : string) (content : file)
  : Res (gmap string file) := Ok (<[path := content]> files).

Definition posix_read (files : gmap string file) (path : string) : Res file :=
  match files !! path with
  | Some f => Ok f
  | None => Raise (FileNotFoundError path)
  end.

(** A converter that keeps the traced function and declares, for an output
    given without a shape, the shape of a run on the declared inputs. *)
Definition simple_convert (tr : Traced) (ins outs : list TensorType)
    (target units : string) : Res MLModel :=
  match ins with
  | [a; b] =>
      match tt_shape a, tt_shape b with
      | Some [r; c], Some [r'; c'] =>
          res_bind (traced_forward tr (Matrix r c (fun _ _ => 0%Z))
                      (torch_ones r' c'))
            (fun out =>
               Ok {| input_spec := ins;
                     output_spec :=
                       map (fun o => {| tt_name := tt_name o;
                                        tt_shape := Some (default (shape3 out) (tt_shape o));
                                        tt_dtype := Some float32 |}) outs;
                     predict := fun inputs =>
                       match inputs !! "input_ids", inputs !! "attention_mask" with
                       | Some ids, Some mask =>
                           res_bind (traced_forward tr ids
                                       (Matrix (rows mask) (cols mask)
                                          (fun i j => IZR (at2 mask i j))))
                             (fun t => Ok (<["logits" := t]> ∅))
                       | _, _ => Raise (KeyError "input_ids")
                       end;
                     short_description := "";
                     author := "";
                     license := "";
                     version := "";
                     input_description := ∅;
                     output_description := ∅ |})
      | _, _ => Raise (ValueError "rank-2 input shapes required")
      end
  | _ => Raise (ValueError "two inputs expected")
  end.

(** Everything works. *)
Definition good_env : Env :=
  {| import_module := fun _ => Ok tt;
     AutoTokenizer_from_pretrained := fun _ => Ok bert_tokenizer;
     AutoModelForTokenClassification_from_pretrained := fun _ => Ok tiny_model;
     torch_randint := fun g lo hi r c => (Ok (Matrix r c (fun _ _ => lo)), (g + 1)%Z);
     torch_jit_trace := fun f a b =>
       res_bind (f a b) (fun _ => Ok {| traced_forward := f |});
     ct_convert := simple_convert;
     fs_write := posix_write;
     fs_write_failed := fun files path _ => <[path := FPartial]> files;
     fs_read := posix_read |}.

(** What [good_env] traces and converts for the tiny model. *)
Definition traced_model : Traced :=
  {| traced_forward := NERModelWrapper_forward tiny_model |}.


(** As [good_env], but the saved package cannot be read back. *)
Definition missing_package_env : Env :=
  {| import_module := import_module good_env;
     AutoTokenizer_from_pretrained := AutoTokenizer_from_pretrained good_env;
     AutoModelForTokenClassification_from_pretrained :=
       AutoModelForTokenClassification_from_pretrained good_env;
     torch_randint := torch_randint good_env;
     torch_jit_trace := torch_jit_trace good_env;
     ct_convert := ct_convert good_env;
     fs_write := posix_write;
     fs_write_failed := fs_write_failed good_env;
     fs_read := fun files path =>
       if bool_decide (path = package_path) then Raise (FileNotFoundError path)
       else posix_read files path |}.

Definition empty_world : World := {| fs := ∅; rng := 0 |}.

(** Three positions and a single class; no label table entry for it. *)
Definition one_class_logits : tensor3 := Tensor3 1 3 1 (fun _ _ _ => 0%R).
Definition one_class_logits0 : matrix R := Matrix 3 1 (fun _ _ => 0%R).
Definition sample_tokens : list string := ["[CLS]"; "[UNK]"; "[SEP]"].

(** Three positions and two classes, the second scored higher. *)
Definition two_class_logits : tensor3 :=
  Tensor3 1 3 2 (fun _ _ c => match c with O => 0%R | _ => 1%R end).
Definition two_class_logits0 : matrix R :=
  Matrix 3 2 (fun _ c => match c with O => 0%R | _ => 1%R end).

Definition sample_encoding : Encoding :=
  {| enc_input_ids := Matrix 1 3 (fun _ j => nth j [101%Z; 100%Z; 102%Z] 0%Z);
     enc_attention_mask := Matrix 1 3 (fun _ _ => 1%Z) |}.

(** A package described by its prediction function only. *)
Definition package_of (f : gmap string (matrix Z) -> Res (gmap string tensor3))
  : MLModel :=
  {| input_spec := input_types; output_spec := output_types; predict := f;
     short_description := ""; author := ""; license := ""; version := "";
     input_description := ∅; output_description := ∅ |}.

(** A package whose prediction has no "logits" entry, one whose scores have
    no class, and one that scores a single class at three positions. *)
Definition no_logits_package : MLModel := package_of (fun _ => Ok ∅).
Definition zero_class_logits : tensor3 := Tensor3 1 3 0 (fun _ _ _ => 0%R).
Definition zero_class_package : MLModel :=
  package_of (fun _ => Ok (<["logits" := zero_class_logits]> ∅)).
Definition one_class_package : MLModel :=
  package_of (fun _ => Ok (<["logits" := one_class_logits]> ∅)).

(** A directory that holds a package and nothing else. *)
Definition package_only_world : World :=
  {| fs := <[package_path := FPackage one_class_package]> ∅; rng := 0 |}.

(** As [good_env], but the hub cannot be reached. *)
Definition offline_env : Env :=
  {| import_module := import_module good_env;
     AutoTokenizer_from_pretrained := fun name =>
       Raise (Exn "OSError" ("cannot load tokenizer for '" ++ name ++ "'"));
     AutoModelForTokenClassification_from_pretrained :=
       AutoModelForTokenClassification_from_pretrained good_env;
     torch_randint := torch_randint good_env;
     torch_jit_trace := torch_jit_trace good_env;
     ct_convert := ct_convert good_env;
     fs_write := posix_write;
     fs_write_failed := fs_write_failed good_env;
     fs_read := posix_read |}.

(** As [good_env], but the disk fills up when [labels.json] is written:
    the file is left half written. *)
Definition disk_full_env : Env :=
  {| import_module := import_module good_env;
     AutoTokenizer_from_pretrained := AutoTokenizer_from_pretrained good_env;
     AutoModelForTokenClassification_from_pretrained :=
       AutoModelForTokenClassification_from_pretrained good_env;
     torch_randint := torch_randint good_env;
     torch_jit_trace := torch_jit_trace good_env;
     ct_convert := ct_convert good_env;
     fs_write := fun files path content =>
       if bool_decide (path = "labels.json")
       then Raise (Exn "OSError" "No space left on device")
       else posix_write files path content;
     fs_write_failed := fs_write_failed good_env;
     fs_read := posix_read |}.

(** As [good_env], but torch is not installed. *)
Definition no_torch_env : Env :=
  {| import_module := fun name =>
       if bool_decide (name = "torch")
       then Raise (Exn "ModuleNotFoundError" "No module named 'torch'")
       else Ok tt;
     AutoTokenizer_from_pretrained := AutoTokenizer_from_pretrained good_env;
     AutoModelForTokenClassification_from_pretrained :=
       AutoModelForTokenClassification_from_pretrained good_env;
     torch_randint := torch_randint good_env;
     torch_jit_trace := torch_jit_trace good_env;
     ct_convert := ct_convert good_env;
     fs_write := posix_write;
     fs_write_failed := fs_write_failed good_env;
     fs_read := posix_read |}.

End Sample.

(** ** Facts about the reductions *)

Section SoftmaxFacts.

Open Scope R_scope.

Lemma fold_left_Rmax_ge (l : list R) (a : R) : a <= fold_left Rmax l a.
Proof.
  revert a. induction l as [|b l IH]; intros a; simpl.
  - lra.
  - specialize (IH (Rmax a b)). pose proof (Rmax_l a b). lra.
Qed.

Lemma fold_left_Rmax_upper (l : list R) (a : R) (y : R) :
  y ∈ l -> y <= fold_left Rmax l a.
Proof.
  revert a. induction l as [|b l IH]; intros a Hy; simpl.
  - inversion Hy.
  - apply elem_of_cons in Hy as [->|Hy].
    + pose proof (fold_left_Rmax_ge l (Rmax a b)).
      pose proof (Rmax_r a b). lra.
    + by apply IH.
Qed.

Lemma fold_left_Rmax_elem (l : list R) (a : R) :
  fold_left Rmax l a ∈ a :: l.
Proof.
  revert a. induction l as [|b l IH]; intros a; simpl.
  - apply elem_of_cons. by left.
  - specialize (IH (Rmax a b)). rewrite !elem_of_cons in *.
    destruct IH as [Heq|Hin]; [|auto].
    rewrite Heq. unfold Rmax. destruct (Rle_dec a b); auto.
Qed.

Lemma sum_map_div (l : list R) (s : R) :
  Np.sum (map (fun e => e / s) l) = Np.sum l / s.
Proof.
  induction l as [|a l IH]; simpl.
  - unfold Rdiv. lra.
  - rewrite IH. unfold Rdiv. lra.
Qed.

Lemma sum_exp_nonneg (f : R -> R) (l : list R) :
  0 <= Np.sum (map (fun xi => exp (f xi)) l).
Proof.
  induction l as [|a l IH]; simpl.
  - lra.
  - pose proof (exp_pos (f a)). lra.
Qed.

Lemma sum_exp_pos (f : R -> R) (l : list R) :
  l <> [] -> 0 < Np.sum (map (fun xi => exp (f xi)) l).
Proof.
  destruct l as [|a l]; [done|]. intros _. simpl.
  pose proof (exp_pos (f a)). pose proof (sum_exp_nonneg f l). lra.
Qed.

Lemma sum_exp_member (f : R -> R) (l : list R) (y : R) :
  y ∈ l -> exp (f y) <= Np.sum (map (fun xi => exp (f xi)) l).
Proof.
  induction l as [|a l IH]; intros Hy; simpl.
  - inversion Hy.
  - apply elem_of_cons in Hy as [->|Hy].
    + pose proof (sum_exp_nonneg f l). lra.
    + specialize (IH Hy). pose proof (exp_pos (f a)). lra.
Qed.

(** Shifting every score by [m] scales the sum of exponentials by
    [exp (- m)]. *)
Lemma sum_exp_shift (m : R) (l : list R) :
  Np.sum (map (fun xi => exp (xi - m)) l) = Np.sum (map exp l) / exp m.
Proof.
  induction l as [|a l IH]; simpl.
  - unfold Rdiv. lra.
  - rewrite IH. unfold Rminus. rewrite exp_plus, exp_Ropp.
    unfold Rdiv. lra.
Qed.

Lemma softmax_unfold (a : R) (l : list R) :
  softmax (a :: l) =
  let m := fold_left Rmax l a in
  let exp_x := map (fun xi => exp (xi - m)) (a :: l) in
  Ok (map (fun e => e / Np.sum exp_x) exp_x).
Proof. reflexivity. Qed.

Lemma softmax_values (x : list R) :
  x <> [] ->
  exists p, softmax x = Ok p /\ length p = length x /\
            (forall v, v ∈ p -> 0 <= v <= 1) /\ Np.sum p = 1.
Proof.
  destruct x as [|a l]; [done|]. intros _. rewrite softmax_unfold. cbv zeta.
  generalize (fold_left Rmax l a). intros m.
  pose proof (sum_exp_pos (fun xi => xi - m) (a :: l) ltac:(done)) as Hpos.
  cbv beta in Hpos.
  eexists. split; [reflexivity|]. split_and!.
  - by rewrite !length_map.
  - intros v Hv. apply list_elem_of_fmap in Hv as (e & -> & He).
    apply list_elem_of_fmap in He as (y & -> & Hy).
    pose proof (exp_pos (y - m)) as Hy0.
    pose proof (sum_exp_member (fun xi => xi - m) (a :: l) y Hy) as Hle.
    cbv beta in Hle. revert Hpos Hle.
    generalize (Np.sum (map (fun xi => exp (xi - m)) (a :: l))).
    intros s Hpos Hle. split.
    + apply Rlt_le, Rdiv_lt_0_compat; assumption.
    + apply (Rmult_le_reg_r s); [done|].
      unfold Rdiv. rewrite Rmult_assoc, Rinv_l by lra. lra.
  - rewrite sum_map_div. unfold Rdiv. apply Rinv_r. lra.
Qed.

(** C10: on every score vector with at least one class, the implemented
    softmax, which subtracts the maximum before exponentiating, returns
    exactly the textbook softmax [exp x_i / sum_j exp x_j]. *)
Theorem softmax_refines_textbook (x : list R) :
  x <> [] -> softmax x = Ok (textbook_softmax x).
Proof.
  destruct x as [|a l]; [done|]. intros _. rewrite softmax_unfold. cbv zeta.
  f_equal. unfold textbook_softmax. rewrite map_map. apply map_ext. intros xi.
  rewrite sum_exp_shift. generalize (fold_left Rmax l a). intros m.
  assert (HT : 0 < Np.sum (map exp (a :: l)))
    by exact (sum_exp_pos (fun xi => xi) (a :: l) ltac:(done)).
  revert HT. generalize (Np.sum (map exp (a :: l))). intros T HT.
  pose proof (exp_pos m).
  unfold Rminus. rewrite exp_plus, exp_Ropp. field. split; lra.
Qed.

End SoftmaxFacts.

(** ** The program monad *)

Section MonadFacts.

Context {A B : Type}.

Lemma run_bind (m : Py A) (f : A -> Py B) (w : World) :
  (m ≫= f) w =
  match result (m w) with
  | Ok a =>
      {| result := result (f a (final (m w)));
         final := final (f a (final (m w)));
         printed := printed (m w) ++ printed (f a (final (m w))) |}
  | Raise e =>
      {| result := Raise e; final := final (m w); printed := printed (m w) |}
  end.
Proof. reflexivity. Qed.

Lemma run_lift_bind (r : Res A) (f : A -> Py B) (w : World) :
  (lift r ≫= f) w =
  match r with
  | Ok a => f a w
  | Raise e => {| result := Raise e; final := w; printed := [] |}
  end.
Proof.
  rewrite run_bind. unfold lift; simpl. destruct r; [|done].
  by destruct (f a w).
Qed.

Lemma run_ret_bind (a : A) (f : A -> Py B) (w : World) :
  (mret a ≫= f) w = f a w.
Proof. rewrite run_bind. simpl. by destruct (f a w). Qed.

End MonadFacts.

Lemma bind_assoc {A B C} (m : Py A) (f : A -> Py B) (g : B -> Py C) (w : World) :
  ((m ≫= f) ≫= g) w = (m ≫= fun a => f a ≫= g) w.
Proof.
  rewrite !run_bind. destruct (result (m w)) as [a|e]; simpl; [|done].
  rewrite run_bind. destruct (result (f a (final (m w)))); simpl; [|done].
  by rewrite app_assoc.
Qed.

Lemma result_lift_bind {A B} (r : Res A) (f : A -> Py B) (w : World) :
  result ((lift r ≫= f) w) = res_bind r (fun a => result (f a w)).
Proof. rewrite run_lift_bind. by destruct r. Qed.

Lemma result_read_bind {B} (env : Env) (path : string) (f : file -> Py B)
    (w : World) :
  result ((read_file env path ≫= f) w)
  = res_bind (fs_read env (fs w) path) (fun a => result (f a w)).
Proof. rewrite run_bind. unfold read_file. simpl. by destruct (fs_read _ _ _). Qed.

Lemma result_print_bind {B} (m : msg) (k : Py B) (w : World) :
  result ((print m ≫= fun _ => k) w) = result (k w).
Proof. reflexivity. Qed.

Lemma run_print_bind {B} (m : msg) (k : Py B) (w : World) :
  (print m ≫= fun _ => k) w =
  {| result := result (k w); final := final (k w);
     printed := m :: printed (k w) |}.
Proof. reflexivity. Qed.

(** ** The decoding loop *)

Section Decode.

Open Scope R_scope.

Lemma softmax_nonempty_ok (x : list R) :
  x <> [] -> exists p, softmax x = Ok p /\ length p = length x.
Proof.
  destruct x as [|a l]; [done|]. intros _.
  rewrite softmax_unfold. eexists. split; [reflexivity|].
  by rewrite !length_map.
Qed.

Lemma token_confidence_total (t : tensor3) (i : nat) :
  (0 < dim0 t)%nat -> (i < dim1 t)%nat -> (0 < dim2 t)%nat ->
  exists c, token_confidence t i = Ok c.
Proof.
  intros H0 H1 H2. unfold token_confidence, tensor_first, matrix_row.
  rewrite decide_True by done. simpl. rewrite decide_True by done. simpl.
  destruct (softmax_nonempty_ok (map (at3 t 0 i) (seq 0 (dim2 t)))) as (p & -> & Hlen).
  { destruct (dim2 t); [lia|done]. }
  simpl. destruct p as [|v p].
  - rewrite length_map, length_seq in Hlen. simpl in Hlen. lia.
  - simpl. eauto.
Qed.

Lemma token_loop_spec (id2label : gmap Z string) (t : tensor3)
    (items : list (nat * (string * nat))) (acc : list entity) (w : World) :
  (0 < dim0 t)%nat -> (0 < dim2 t)%nat ->
  Forall (fun it => (it.1 < dim1 t)%nat) items ->
  exists ents,
    result (token_loop id2label t items acc w) = Ok ents /\
    final (token_loop id2label t items acc w) = w /\
    (forall e, e ∈ ents <->
               e ∈ acc \/ exists it, it ∈ items /\ collects id2label t it e) /\
    (forall m, m ∈ printed (token_loop id2label t items acc w) <->
               exists it, it ∈ items /\ reports id2label t it m).
Proof.
  intros H0 H2 Hall. revert acc.
  induction Hall as [|[i [tok lid]] items Hi Hall IH]; intros acc.
  - exists acc. simpl. split_and!; [done|done|intros e|intros m]; split.
    + by left.
    + intros [?|(it & Hin & _)]; [done|]. by apply elem_of_nil in Hin.
    + intros Hin. by apply elem_of_nil in Hin.
    + intros (it & Hin & _). by apply elem_of_nil in Hin.
  - simpl in Hi. cbn [token_loop]. case_bool_decide as Hskip.
    + destruct (IH acc) as (ents & Hr & Hf & He & Hp).
      exists ents. split_and!; [done|done|intros e|intros m]; split.
      * intros Hin. apply He in Hin as [?|(it & Hin & Hc)]; [by left|right].
        exists it. split; [|done]. apply elem_of_cons. by right.
      * intros [?|(it & Hin & Hc)]; apply He; [by left|].
        apply elem_of_cons in Hin as [->|Hin]; [|right; eauto].
        by destruct Hc as (Hns & _).
      * intros Hin. apply Hp in Hin as (it & Hin & Hc).
        exists it. split; [|done]. apply elem_of_cons. by right.
      * intros (it & Hin & Hc). apply Hp.
        apply elem_of_cons in Hin as [->|Hin]; [|eauto].
        by destruct Hc as (Hns & _).
    + destruct (token_confidence_total t i H0 Hi H2) as (c & Hc).
      rewrite run_lift_bind, Hc, run_print_bind.
      set (label := default "UNKNOWN" (id2label !! Z.of_nat lid)).
      set (acc' := if bool_decide (label ≠ no_entity_label)
                      && bool_decide (c > confidence_threshold)
                   then (acc ++ [(tok, label, c)])%list else acc).
      assert (Hloop :
        (if bool_decide (label ≠ no_entity_label)
            && bool_decide (c > confidence_threshold)
         then token_loop id2label t items (acc ++ [(tok, label, c)])
         else token_loop id2label t items acc) = token_loop id2label t items acc').
      { unfold acc'. by destruct (_ && _). }
      rewrite Hloop. clear Hloop.
      destruct (IH acc') as (ents & Hr & Hf & He & Hp).
      exists ents. cbn [result final printed].
      split_and!; [done|done|intros e|intros m]; split.
      * intros Hin. apply He in Hin as [Hin|(it & Hin & Hcl)].
        -- unfold acc' in Hin.
           destruct (bool_decide (label ≠ no_entity_label)) eqn:Hl;
             destruct (bool_decide (c > confidence_threshold)) eqn:Hg;
             simpl in Hin; try by left.
           apply elem_of_app in Hin as [?|Hin]; [by left|right].
           apply list_elem_of_singleton in Hin as ->.
           exists (i, (tok, lid)). split; [apply elem_of_cons; by left|].
           apply bool_decide_eq_true in Hl, Hg.
           split_and!; [done|done|]. by exists c.
        -- right. exists it. split; [|done]. apply elem_of_cons. by right.
      * intros [Hin|(it & Hin & Hcl)]; apply He.
        -- left. unfold acc'. destruct (_ && _); [|done].
           apply elem_of_app. by left.
        -- apply elem_of_cons in Hin as [->|Hin]; [|right; eauto].
           left. destruct Hcl as (_ & Hl & c' & Hc' & Hg & ->).
           simpl in *. rewrite Hc in Hc'. injection Hc' as <-.
           unfold acc'. fold label in Hl |- *.
           rewrite !bool_decide_eq_true_2 by done. simpl.
           apply elem_of_app. right. by apply list_elem_of_singleton.
      * intros Hin. apply elem_of_cons in Hin as [->|Hin].
        -- exists (i, (tok, lid)). split; [apply elem_of_cons; by left|].
           split; [done|]. by exists c.
        -- apply Hp in Hin as (it & Hin & Hrep).
           exists it. split; [|done]. apply elem_of_cons. by right.
      * intros (it & Hin & Hrep). apply elem_of_cons.
        apply elem_of_cons in Hin as [->|Hin]; [left|right; apply Hp; eauto].
        destruct Hrep as (_ & c' & Hc' & ->). simpl in *.
        rewrite Hc in Hc'. by injection Hc' as <-.
Qed.

Lemma res_mapM_length {X Y} (f : X -> Res Y) (l : list X) (r : list Y) :
  res_mapM f l = Ok r -> length r = length l.
Proof.
  revert r. induction l as [|a l IH]; intros r; simpl.
  - by intros [= <-].
  - destruct (f a); simpl; [|done].
    destruct (res_mapM f l) as [bs|]; simpl; [|done].
    intros [= <-]. simpl. f_equal. by apply IH.
Qed.

Lemma tensor_first_ok (t : tensor3) (m : matrix R) :
  tensor_first t = Ok m ->
  (0 < dim0 t)%nat /\ rows m = dim1 t /\ cols m = dim2 t.
Proof.
  unfold tensor_first. case_decide; [|done]. by intros [= <-].
Qed.

Lemma argmax_last_axis_ok (m : matrix R) (l : list nat) :
  argmax_last_axis m = Ok l -> (0 < cols m)%nat /\ length l = rows m.
Proof.
  unfold argmax_last_axis. case_decide; [done|]. intros Hl.
  apply res_mapM_length in Hl. rewrite length_seq in Hl. split; [lia|done].
Qed.

Lemma elem_of_enumerate_zip {X Y} (xs : list X) (ys : list Y) i x y :
  (i, (x, y)) ∈ enumerate (zip xs ys) <-> xs !! i = Some x /\ ys !! i = Some y.
Proof.
  unfold enumerate. rewrite list_elem_of_lookup. split.
  - intros (j & Hj). apply lookup_zip_with_Some in Hj as (a & b & Heq & Ha & Hb).
    apply lookup_seq in Ha as (Ha & _). simpl in Ha. simplify_eq.
    apply lookup_zip_with_Some in Hb as (x' & y' & Heq & ? & ?).
    by simplify_eq.
  - intros (Hx & Hy). exists i. apply lookup_zip_with_Some.
    assert (Hz : zip xs ys !! i = Some (x, y)).
    { apply lookup_zip_with_Some. by exists x, y. }
    exists i, (x, y). split_and!; [done| |done].
    apply lookup_seq. split; [done|]. by apply lookup_lt_Some in Hz.
Qed.

Lemma enumerate_zip_in_range {X Y} (xs : list X) (ys : list Y) (n : nat) :
  length ys = n ->
  Forall (fun it : nat * (X * Y) => (it.1 < n)%nat) (enumerate (zip xs ys)).
Proof.
  intros Hn. apply Forall_forall. intros [i [x y]] Hin.
  apply elem_of_enumerate_zip in Hin as (_ & Hy). simpl.
  apply lookup_lt_Some in Hy. lia.
Qed.

(** The loop as [predict_and_decode] runs it: over the tokens zipped with
    the arg-max of [logits[0]]. *)
Lemma decode_loop_spec (id2label : gmap Z string) (logits : tensor3)
    (logits0 : matrix R) (tokens : list string) (predicted_labels : list nat)
    (w : World) :
  tensor_first logits = Ok logits0 ->
  argmax_last_axis logits0 = Ok predicted_labels ->
  let run := token_loop id2label logits
               (enumerate (zip tokens predicted_labels)) [] w in
  exists entities_found,
    result run = Ok entities_found /\ final run = w /\
    (forall e, e ∈ entities_found <->
       exists i token label_id,
         tokens !! i = Some token /\ predicted_labels !! i = Some label_id /\
         collects id2label logits (i, (token, label_id)) e) /\
    (forall m, m ∈ printed run <->
       exists i token label_id,
         tokens !! i = Some token /\ predicted_labels !! i = Some label_id /\
         reports id2label logits (i, (token, label_id)) m).
Proof.
  intros Hfirst Hargmax run.
  apply tensor_first_ok in Hfirst as (H0 & Hrows & Hcols).
  apply argmax_last_axis_ok in Hargmax as (H2 & Hlen).
  destruct (token_loop_spec id2label logits
              (enumerate (zip tokens predicted_labels)) [] w)
    as (ents & Hr & Hf & He & Hp); [done|lia| |].
  { apply enumerate_zip_in_range. lia. }
  exists ents. split_and!; [done|done|intros e|intros m].
  - rewrite He. split.
    + intros [Hnil|([i [tok lid]] & Hin & Hc)]; [by apply elem_of_nil in Hnil|].
      apply elem_of_enumerate_zip in Hin as (? & ?). by exists i, tok, lid.
    + intros (i & tok & lid & Ht & Hl & Hc). right. exists (i, (tok, lid)).
      split; [|done]. by apply elem_of_enumerate_zip.
  - unfold run. rewrite Hp. split.
    + intros ([i [tok lid]] & Hin & Hc).
      apply elem_of_enumerate_zip in Hin as (? & ?). by exists i, tok, lid.
    + intros (i & tok & lid & Ht & Hl & Hc). exists (i, (tok, lid)).
      split; [|done]. by apply elem_of_enumerate_zip.
Qed.

End Decode.

(** ** The smoke test's report and entity list *)

Section Report.

Open Scope R_scope.

Lemma token_line_inj t l c t' l' c' :
  token_line t l c = token_line t' l' c' -> t = t' /\ l = l' /\ c = c'.
Proof. unfold token_line. intros [= -> -> ->]. done. Qed.

Lemma single_class_confidence :
  token_confidence Sample.one_class_logits 1 = Ok 1.
Proof.
  unfold token_confidence. simpl. f_equal.
  replace (0 - 0) with 0 by lra. rewrite exp_0. lra.
Qed.

(** C5: a triple is in the entities-found list exactly when its token was
    not skipped, its label is not "O" and its confidence is strictly above
    0.5. *)
Theorem entity_collected_iff (id2label : gmap Z string) (logits : tensor3)
    (logits0 : matrix R) (tokens : list string) (predicted_labels : list nat)
    (w : World) :
  tensor_first logits = Ok logits0 ->
  argmax_last_axis logits0 = Ok predicted_labels ->
  exists entities_found,
    result (token_loop id2label logits
              (enumerate (zip tokens predicted_labels)) [] w)
      = Ok entities_found /\
    forall token label confidence,
      (token, label, confidence) ∈ entities_found <->
      exists i label_id,
        tokens !! i = Some token /\ predicted_labels !! i = Some label_id /\
        label = default "UNKNOWN" (id2label !! Z.of_nat label_id) /\
        token_confidence logits i = Ok confidence /\
        (token ∉ skipped_tokens) /\ label <> "O"%string /\ confidence > 5 / 10.
Proof.
  intros Hfirst Hargmax.
  destruct (decode_loop_spec id2label logits logits0 tokens predicted_labels w
              Hfirst Hargmax) as (ents & Hr & _ & He & _).
  exists ents. split; [done|]. intros token label confidence. rewrite He.
  split.
  - intros (i & tok & lid & Ht & Hl & Hskip & Hlab & c & Hc & Hgt & Heq).
    simpl in *. injection Heq as -> -> ->. by exists i, lid.
  - intros (i & lid & Ht & Hl & -> & Hc & Hskip & Hlab & Hgt).
    exists i, token, lid. split_and!; [done|done|].
    unfold collects; simpl. split_and!; [done|done|]. by exists confidence.
Qed.

Lemma entity_collected_iff_witness :
  exists entities_found,
    result (token_loop ∅ Sample.one_class_logits
              (enumerate (zip Sample.sample_tokens [0; 0; 0]%nat)) []
              Sample.empty_world)
      = Ok entities_found /\
    forall token label confidence,
      (token, label, confidence) ∈ entities_found <->
      exists i label_id,
        Sample.sample_tokens !! i = Some token /\
        [0; 0; 0]%nat !! i = Some label_id /\
        label = default "UNKNOWN" ((∅ : gmap Z string) !! Z.of_nat label_id) /\
        token_confidence Sample.one_class_logits i = Ok confidence /\
        (token ∉ skipped_tokens) /\ label <> "O"%string /\ confidence > 5 / 10.
Proof.
  apply (entity_collected_iff ∅ Sample.one_class_logits
           Sample.one_class_logits0); reflexivity.
Defined.

(** C6 (as the code has it): a line is reported for a token exactly when
    the token is none of the three literal strings [CLS], [SEP], [PAD];
    an unknown or mask token is reported like any other token. *)
Theorem report_skips_three_literals (id2label : gmap Z string)
    (logits : tensor3) (logits0 : matrix R) (tokens : list string)
    (predicted_labels : list nat) (w : World) :
  tensor_first logits = Ok logits0 ->
  argmax_last_axis logits0 = Ok predicted_labels ->
  forall token label confidence,
    token_line token label confidence
      ∈ printed (token_loop id2label logits
                   (enumerate (zip tokens predicted_labels)) [] w) <->
    exists i label_id,
      tokens !! i = Some token /\ predicted_labels !! i = Some label_id /\
      label = default "UNKNOWN" (id2label !! Z.of_nat label_id) /\
      token_confidence logits i = Ok confidence /\
      (token ∉ ["[CLS]"; "[SEP]"; "[PAD]"]%string).
Proof.
  intros Hfirst Hargmax token label confidence.
  destruct (decode_loop_spec id2label logits logits0 tokens predicted_labels w
              Hfirst Hargmax) as (ents & _ & _ & _ & Hp).
  rewrite Hp. split.
  - intros (i & tok & lid & Ht & Hl & Hskip & c & Hc & Heq). simpl in *.
    apply token_line_inj in Heq as (-> & -> & ->). by exists i, lid.
  - intros (i & lid & Ht & Hl & -> & Hc & Hskip).
    exists i, token, lid. split_and!; [done|done|].
    unfold reports; simpl. split; [done|]. by exists confidence.
Qed.

Lemma report_skips_three_literals_witness :
  token_line "[UNK]" "UNKNOWN" 1
    ∈ printed (token_loop ∅ Sample.one_class_logits
                 (enumerate (zip Sample.sample_tokens [0; 0; 0]%nat)) []
                 Sample.empty_world) <->
  exists i label_id,
    Sample.sample_tokens !! i = Some "[UNK]"%string /\
    [0; 0; 0]%nat !! i = Some label_id /\
    "UNKNOWN"%string
      = default "UNKNOWN"%string ((∅ : gmap Z string) !! Z.of_nat label_id) /\
    token_confidence Sample.one_class_logits i = Ok 1 /\
    ("[UNK]"%string ∉ ["[CLS]"; "[SEP]"; "[PAD]"]%string).
Proof.
  apply (report_skips_three_literals ∅ Sample.one_class_logits
           Sample.one_class_logits0 Sample.sample_tokens [0; 0; 0]%nat
           Sample.empty_world eq_refl eq_refl "[UNK]"%string
           "UNKNOWN"%string 1).
Defined.

(** C6 fails as stated: the unknown token is one of the tokenizer's
    reserved tokens, and the smoke test reports it. *)
Lemma special_tokens_not_all_skipped :
  ~ (forall (tokenizer : Tokenizer) (id2label : gmap Z string)
            (logits : tensor3) (logits0 : matrix R) (ids : list Z)
            (tokens : list string) (predicted_labels : list nat) (w : World),
        tensor_first logits = Ok logits0 ->
        argmax_last_axis logits0 = Ok predicted_labels ->
        convert_ids_to_tokens tokenizer ids = Ok tokens ->
        forall i token,
          tokens !! i = Some token ->
          Some token ∈ tokenizer_special_tokens tokenizer ->
          forall label confidence,
            token_line token label confidence
              ∉ printed (token_loop id2label logits
                           (enumerate (zip tokens predicted_labels)) [] w)).
Proof.
  intros Hclaim.
  assert (Hspecial : Some "[UNK]"%string
                       ∈ tokenizer_special_tokens Sample.bert_tokenizer).
  { unfold tokenizer_special_tokens. simpl. rewrite !elem_of_cons. auto. }
  apply (Hclaim Sample.bert_tokenizer ∅ Sample.one_class_logits
           Sample.one_class_logits0 [101; 100; 102]%Z Sample.sample_tokens
           [0; 0; 0]%nat Sample.empty_world eq_refl eq_refl eq_refl
           1%nat "[UNK]"%string eq_refl Hspecial "UNKNOWN"%string 1).
  destruct (decode_loop_spec ∅ Sample.one_class_logits
              Sample.one_class_logits0 Sample.sample_tokens
              [0; 0; 0]%nat Sample.empty_world eq_refl eq_refl)
    as (ents & _ & _ & _ & Hp).
  apply Hp. exists 1%nat, "[UNK]"%string, 0%nat.
  split_and!; [done|done|]. unfold reports; simpl. split.
  - unfold skipped_tokens. rewrite !elem_of_cons, elem_of_nil.
    intros [?|[?|[?|[]]]]; discriminate.
  - exists 1. split; [apply single_class_confidence|done].
Qed.

(** C9: when the arg-max class id has no entry in the loaded id2label
    table, the loop does not fail: the label is "UNKNOWN", and the token is
    collected as an entity whenever its confidence exceeds 0.5. *)
Theorem unknown_label_is_collected (id2label : gmap Z string)
    (logits : tensor3) (logits0 : matrix R) (tokens : list string)
    (predicted_labels : list nat) (w : World)
    (i : nat) (token : string) (label_id : nat) (confidence : R) :
  tensor_first logits = Ok logits0 ->
  argmax_last_axis logits0 = Ok predicted_labels ->
  tokens !! i = Some token ->
  predicted_labels !! i = Some label_id ->
  token ∉ skipped_tokens ->
  id2label !! Z.of_nat label_id = None ->
  token_confidence logits i = Ok confidence ->
  confidence > 5 / 10 ->
  exists entities_found,
    result (token_loop id2label logits
              (enumerate (zip tokens predicted_labels)) [] w)
      = Ok entities_found /\
    token_line token "UNKNOWN" confidence
      ∈ printed (token_loop id2label logits
                   (enumerate (zip tokens predicted_labels)) [] w) /\
    (token, "UNKNOWN"%string, confidence) ∈ entities_found.
Proof.
  intros Hfirst Hargmax Ht Hl Hskip Hnone Hc Hgt.
  destruct (decode_loop_spec id2label logits logits0 tokens predicted_labels w
              Hfirst Hargmax) as (ents & Hr & _ & He & Hp).
  exists ents. split_and!; [done| |].
  - apply Hp. exists i, token, label_id. split_and!; [done|done|].
    unfold reports; simpl. split; [done|].
    exists confidence. by rewrite Hnone.
  - apply He. exists i, token, label_id. split_and!; [done|done|].
    unfold collects; simpl. rewrite Hnone. split_and!; [done|done|].
    by exists confidence.
Qed.

Lemma unknown_label_is_collected_witness :
  exists entities_found,
    result (token_loop ∅ Sample.one_class_logits
              (enumerate (zip Sample.sample_tokens [0; 0; 0]%nat)) []
              Sample.empty_world)
      = Ok entities_found /\
    token_line "[UNK]" "UNKNOWN" 1
      ∈ printed (token_loop ∅ Sample.one_class_logits
                   (enumerate (zip Sample.sample_tokens [0; 0; 0]%nat)) []
                   Sample.empty_world) /\
    ("[UNK]"%string, "UNKNOWN"%string, 1) ∈ entities_found.
Proof.
  apply (unknown_label_is_collected ∅ Sample.one_class_logits
           Sample.one_class_logits0 Sample.sample_tokens [0; 0; 0]%nat
           Sample.empty_world 1%nat "[UNK]"%string 0%nat 1).
  - reflexivity.
  - reflexivity.
  - reflexivity.
  - reflexivity.
  - unfold skipped_tokens. rewrite !elem_of_cons, elem_of_nil.
    intros [?|[?|[?|[]]]]; discriminate.
  - reflexivity.
  - apply single_class_confidence.
  - lra.
Defined.

(** The loop only reaches [softmax] with a score vector that has at least
    one class: the arg-max of line 193 has already succeeded on the same
    rows. *)
Lemma decode_scores_nonempty (logits0 : matrix R) (predicted_labels : list nat)
    (i label_id : nat) :
  argmax_last_axis logits0 = Ok predicted_labels ->
  predicted_labels !! i = Some label_id ->
  exists scores, matrix_row logits0 i = Ok scores /\ scores <> [].
Proof.
  intros Hargmax Hi. apply argmax_last_axis_ok in Hargmax as (Hcols & Hlen).
  apply lookup_lt_Some in Hi. unfold matrix_row.
  rewrite decide_True by lia. eexists. split; [reflexivity|].
  destruct (cols logits0); [lia|done].
Qed.

Lemma two_class_argmax :
  argmax_last_axis Sample.two_class_logits0 = Ok [1; 1; 1]%nat.
Proof.
  unfold argmax_last_axis. simpl.
  destruct (Rlt_dec 0 1) as [_|Hnot]; [reflexivity|].
  exfalso. apply Hnot. lra.
Qed.

(** X19: over the reals (NumPy's floats idealised as real numbers), at
    every token position the loop visits the softmax of the position's
    scores has one value per class, every value in [0, 1], and the values
    sum to 1; the reported confidence, their maximum, lies in [0, 1].  In
    floating point the sum is 1 only up to rounding. *)
Theorem softmax_is_distribution (logits : tensor3) (logits0 : matrix R)
    (predicted_labels : list nat) (i label_id : nat) :
  tensor_first logits = Ok logits0 ->
  argmax_last_axis logits0 = Ok predicted_labels ->
  predicted_labels !! i = Some label_id ->
  exists scores p c,
    matrix_row logits0 i = Ok scores /\
    softmax scores = Ok p /\
    length p = dim2 logits /\
    (forall v, v ∈ p -> 0 <= v <= 1) /\
    Np.sum p = 1 /\
    Np.max p = Ok c /\
    token_confidence logits i = Ok c /\
    0 <= c <= 1.
Proof.
  intros Hfirst Hargmax Hi.
  destruct (decode_scores_nonempty logits0 predicted_labels i label_id
              Hargmax Hi) as (scores & Hrow & Hne).
  destruct (softmax_values scores Hne) as (p & Hp & Hlen & Hrange & Hsum).
  assert (Hk : length scores = dim2 logits).
  { apply tensor_first_ok in Hfirst as (_ & _ & Hcols).
    unfold matrix_row in Hrow. case_decide; [|done]. injection Hrow as <-.
    by rewrite length_map, length_seq. }
  destruct p as [|v p].
  { destruct scores; [done|discriminate]. }
  exists scores, (v :: p), (fold_left Rmax p v).
  unfold token_confidence. rewrite Hfirst. simpl. rewrite Hrow. simpl.
  rewrite Hp. simpl. split_and!; try done.
  - simpl in Hlen. lia.
  - apply Hrange, fold_left_Rmax_elem.
  - apply Hrange, fold_left_Rmax_elem.
Qed.

Lemma softmax_is_distribution_witness :
  exists scores p c,
    matrix_row Sample.two_class_logits0 1 = Ok scores /\
    softmax scores = Ok p /\
    length p = dim2 Sample.two_class_logits /\
    (forall v, v ∈ p -> 0 <= v <= 1) /\
    Np.sum p = 1 /\
    Np.max p = Ok c /\
    token_confidence Sample.two_class_logits 1 = Ok c /\
    0 <= c <= 1.
Proof.
  apply (softmax_is_distribution Sample.two_class_logits
           Sample.two_class_logits0 [1; 1; 1]%nat 1%nat 1%nat);
    [reflexivity|apply two_class_argmax|reflexivity].
Defined.

Lemma softmax_refines_textbook_witness :
  softmax [0; 1] = Ok (textbook_softmax [0; 1]).
Proof. apply (softmax_refines_textbook [0; 1]). discriminate. Defined.

End Report.

(** ** The label tables of [labels.json] *)

Section Labels.

Lemma py_int_py_str (z : Z) : py_int (py_str z) = Ok z.
Proof.
  unfold py_int, py_str. rewrite NilZero.isi.
  - by rewrite DecimalZ.of_to.
  - destruct z; simpl; try discriminate.
    intros [= H]. by apply Unsigned.to_uint_nonnil in H.
  - destruct z; simpl; try discriminate.
    intros [= H]. by apply Unsigned.to_uint_nonnil in H.
Qed.

#[local] Instance py_str_inj : Inj (=) (=) py_str.
Proof.
  intros a b H. apply (f_equal py_int) in H.
  rewrite !py_int_py_str in H. by injection H.
Qed.

Lemma json_dump_labels_lookup (c : Config) (id : Z) :
  j_id2label (json_dump_labels c) !! py_str id = id2label c !! id.
Proof. simpl. apply (lookup_kmap py_str). Qed.

(** C4 (as the code has it): [labels.json] holds the two tables of the
    loaded configuration as they are, so [label2id[id2label[id]] == id]
    holds for every id of the file exactly when it holds for the
    configuration. *)
Theorem labels_json_roundtrip_iff (c : Config) :
  labels_roundtrip (json_dump_labels c) <-> config_roundtrip c.
Proof.
  unfold labels_roundtrip, config_roundtrip. split; intros H id label Hl.
  - apply (H id label). by rewrite json_dump_labels_lookup.
  - rewrite json_dump_labels_lookup in Hl. by apply H.
Qed.

(** C4 fails as stated: nothing makes the configuration's tables inverse
    to each other, and the file repeats them. *)
Lemma labels_json_not_always_inverse :
  ~ labels_roundtrip (json_dump_labels Sample.merged_config).
Proof.
  intros H. specialize (H 1%Z "O"). rewrite json_dump_labels_lookup in H.
  vm_compute in H. specialize (H eq_refl). discriminate.
Qed.

(** With a file system that stores what is written, [labels.json] holds
    the serialized tables once the side files are written. *)
Lemma labels_json_written (tokenizer : Tokenizer) (c : Config) (w : World) :
  fs (final (write_side_files Sample.good_env tokenizer c w)) !! "labels.json"
  = Some (FLabels (json_dump_labels c)).
Proof.
  unfold write_side_files. simpl.
  rewrite lookup_insert_ne by done. by rewrite lookup_insert_eq.
Qed.

End Labels.

(** ** Failure containment *)

Section Containment.

Lemma prediction_failed_run (e : exn) (w : World) :
  prediction_failed e w =
  {| result := Ok tt; final := w;
     printed := [ [Lit "Prediction failed: "; Err e];
                  [Lit "This might indicate:"];
                  [Lit "- Input shape mismatch"];
                  [Lit "- Model conversion issues"];
                  [Lit "- Core ML compatibility problems"] ] |}.
Proof. reflexivity. Qed.

Lemma conversion_failed_run (e : exn) (w : World) :
  conversion_failed e w =
  {| result := Ok tt; final := w;
     printed := [ [Lit "Error during conversion: "; Err e];
                  [Lit "Make sure you have installed: torch, transformers, coremltools"] ] |}.
Proof. reflexivity. Qed.

(** Whatever the body of the [try] statement does, the statement ends
    normally; when the body raises, the handler's five lines follow what
    the body had printed. *)
Lemma try_prediction_contained (body : Py unit) (w : World) :
  result (try_except body prediction_failed w) = Ok tt /\
  forall e, result (body w) = Raise e ->
    printed (try_except body prediction_failed w)
    = (printed (body w) ++ printed (prediction_failed e (final (body w))))%list.
Proof.
  unfold try_except. destruct (result (body w)) as [[]|e] eqn:Hb; simpl.
  - split; [done|]. intros e ?. discriminate.
  - split; [done|]. intros e' [= <-]. done.
Qed.


Lemma load_name_test_conversion :
  load_name "test_conversion" = lift (Raise (NameError "test_conversion")).
Proof. reflexivity. Qed.

(** The body of the top-level [try] never ends normally: either the
    conversion raises, or the call of the unbound name does. *)
Lemma main_run (env : Env) (w : World) :
  result (main env w) = Ok tt /\
  printed (main env w) =
    ([Lit "Starting biomedical NER model conversion..."]
     :: printed (convert_biomedical_ner_to_coreml env w)
     ++ match result (convert_biomedical_ner_to_coreml env w) with
        | Ok _ =>
            [Lit "Conversion completed successfully!"]
            :: printed (conversion_failed (NameError "test_conversion") w)
        | Raise e => printed (conversion_failed e w)
        end)%list.
Proof.
  unfold main, try_except. rewrite run_print_bind. cbn [result final printed].
  rewrite run_bind.
  destruct (result (convert_biomedical_ner_to_coreml env w)) as [m|e] eqn:Hc.
  - cbn [result final printed]. rewrite run_print_bind.
    unfold call_no_args. rewrite load_name_test_conversion, run_lift_bind.
    simpl. split; [done|]. by rewrite <- app_assoc.
  - simpl. done.
Qed.

(** *** Run equations: the result of each function in terms of the
    calls into the environment *)

Lemma write_side_files_run (env : Env) tokenizer c (w : World) :
  write_side_files env tokenizer c w =
  match fs_write env (fs w) "vocab.json" (FVocab (get_vocab tokenizer)) with
  | Raise e =>
      {| result := Raise e;
         final := {| fs := fs_write_failed env (fs w) "vocab.json"
                             (FVocab (get_vocab tokenizer));
                     rng := rng w |};
         printed := [] |}
  | Ok fs1 =>
    match fs_write env fs1 "labels.json" (FLabels (json_dump_labels c)) with
    | Raise e =>
        {| result := Raise e;
           final := {| fs := fs_write_failed env fs1 "labels.json"
                               (FLabels (json_dump_labels c));
                       rng := rng w |};
           printed := [] |}
    | Ok fs2 =>
      match fs_write env fs2 "special_tokens.json"
              (FSpecialTokens (special_tokens tokenizer)) with
      | Raise e =>
          {| result := Raise e;
             final := {| fs := fs_write_failed env fs2 "special_tokens.json"
                                 (FSpecialTokens (special_tokens tokenizer));
                         rng := rng w |};
             printed := [] |}
      | Ok fs3 =>
          {| result := Ok tt; final := {| fs := fs3; rng := rng w |};
             printed := [ [Lit "Tokenizer info saved:"];
                          [Lit "- vocab.json (vocabulary mapping)"];
                          [Lit "- labels.json (entity label mappings)"];
                          [Lit "- special_tokens.json (special token info)"] ] |}
      end
    end
  end.
Proof.
  unfold write_side_files, write_file. cbv zeta.
  unfold mbind, Py_bind, py_bind. simpl.
  destruct (fs_write env (fs w) _ _) as [fs1|e]; simpl; [|done].
  destruct (fs_write env fs1 _ _) as [fs2|e]; simpl; [|done].
  destruct (fs_write env fs2 _ _) as [fs3|e]; simpl; done.
Qed.

Lemma smoke_test_result (env : Env) (w : World) :
  result (smoke_test env w) =
  res_bind (fs_read env (fs w) package_path) (fun f =>
    match f with
    | FPackage model =>
        res_bind (AutoTokenizer_from_pretrained env hub_name) (fun tokenizer =>
        res_bind (res_bind (fs_read env (fs w) "labels.json") (fun f =>
                    match f with
                    | FLabels label_data => load_id2label label_data
                    | _ => Raise (KeyError "id2label")
                    end)) (fun _ =>
        res_bind (encode_padded tokenizer sample_text 512) (fun _ => Ok tt)))
    | _ => Raise (Exn "RuntimeError" "not a valid model package")
    end).
Proof.
  unfold smoke_test, load_package, load_labels.
  rewrite bind_assoc, result_read_bind.
  destruct (fs_read env (fs w) package_path) as [f|e]; [|done].
  cbn [res_bind].
  destruct f as [model| | | |]; try (by rewrite result_lift_bind).
  rewrite run_ret_bind, result_lift_bind.
  destruct (AutoTokenizer_from_pretrained env hub_name) as [tokenizer|e]; [|done].
  cbn [res_bind]. rewrite bind_assoc, result_read_bind.
  destruct (fs_read env (fs w) "labels.json") as [f|e]; [|done].
  cbn [res_bind].
  assert (Hrest : forall r : Res (gmap Z string),
    result ((lift r ≫= fun id2label =>
      print [Lit (newline ++ "Testing with sample text: '"); Str sample_text;
             Lit "'"];;
      encoded ← lift (encode_padded tokenizer sample_text 512);
      print [Obj "encoded"];;
      try_except
        (predict_and_decode model tokenizer id2label encoded
           (enc_input_ids encoded) (enc_attention_mask encoded))
        prediction_failed) w)
    = res_bind r (fun _ =>
        res_bind (encode_padded tokenizer sample_text 512) (fun _ => Ok tt))).
  { intros r. rewrite result_lift_bind. destruct r as [id2label|e]; [|done].
    cbn [res_bind]. rewrite result_print_bind, result_lift_bind.
    destruct (encode_padded tokenizer sample_text 512) as [encoded|e]; [|done].
    cbn [res_bind]. rewrite result_print_bind.
    apply try_prediction_contained. }
  destruct f; apply Hrest.
Qed.

Lemma save_tokenizer_info_result (env : Env) tokenizer c (w : World) :
  result (save_tokenizer_info env tokenizer c w) =
  res_bind (result (write_side_files env tokenizer c w)) (fun _ =>
    result (smoke_test env (final (write_side_files env tokenizer c w)))).
Proof.
  unfold save_tokenizer_info. rewrite run_bind.
  by destruct (result (write_side_files env tokenizer c w)).
Qed.

Lemma convert_result (env : Env) (w : World) :
  result (convert_biomedical_ner_to_coreml env w) =
  res_bind (AutoTokenizer_from_pretrained env hub_name) (fun tokenizer =>
  res_bind (AutoModelForTokenClassification_from_pretrained env hub_name) (fun model =>
  let r := torch_randint env (rng w) 0 (vocab_size tokenizer) 1 max_sequence_length in
  res_bind r.1 (fun input_ids =>
  res_bind (torch_jit_trace env (NERModelWrapper_forward model) input_ids
              (torch_ones 1 max_sequence_length)) (fun traced =>
  res_bind (ct_convert env traced input_types output_types "iOS18" "ALL") (fun pkg =>
  res_bind (fs_write env (fs w) package_path (FPackage (add_metadata pkg))) (fun fs1 =>
  res_bind (result (save_tokenizer_info env tokenizer (config model)
                      {| fs := fs1; rng := r.2 |})) (fun _ =>
  Ok (add_metadata pkg)))))))).
Proof.
  unfold convert_biomedical_ner_to_coreml.
  rewrite run_print_bind. cbn [result].
  rewrite run_lift_bind.
  destruct (AutoTokenizer_from_pretrained env hub_name) as [tokenizer|e]; [|done].
  rewrite run_lift_bind.
  destruct (AutoModelForTokenClassification_from_pretrained env hub_name)
    as [model|e]; [|done].
  rewrite !run_print_bind. cbn [result res_bind].
  rewrite run_bind. unfold randint at 1 2 3.
  destruct (torch_randint env (rng w) 0 (vocab_size tokenizer) 1
              max_sequence_length) as [[ids|e] g]; [|done].
  cbn [result final printed fst snd res_bind].
  rewrite run_print_bind. cbn [result]. rewrite run_lift_bind.
  destruct (torch_jit_trace _ _ _ _) as [traced|e]; [|done].
  rewrite run_print_bind. cbn [result res_bind]. rewrite run_lift_bind.
  destruct (ct_convert _ _ _ _ _ _) as [pkg|e]; [|done].
  cbn [res_bind]. rewrite run_bind. unfold write_file at 1 2 3. cbn [fs rng].
  destruct (fs_write _ _ _ _) as [fs1|e]; [|done].
  cbn [result final printed res_bind]. rewrite run_print_bind. cbn [result].
  rewrite run_bind.
  destruct (result (save_tokenizer_info _ _ _ _)) as [[]|e]; [|done].
  reflexivity.
Qed.

(** *** The concrete worlds *)

Lemma good_env_converts :
  exists m, result (convert_biomedical_ner_to_coreml Sample.good_env
                      Sample.empty_world) = Ok m.
Proof.
  rewrite convert_result. cbn -[save_tokenizer_info].
  rewrite save_tokenizer_info_result, write_side_files_run.
  cbn -[smoke_test]. rewrite smoke_test_result.
  eexists. vm_compute. reflexivity.
Qed.


(** The whole run when the saved package cannot be read back: no
    "Prediction failed" line, and the top-level handler reports the
    error. *)
Example missing_package_run :
  printed (main Sample.missing_package_env Sample.empty_world) =
  [ [Lit "Starting biomedical NER model conversion..."];
    [Lit "Loading model: "; Str "d4data/biomedical-ner-all"];
    [Lit "Model config: "; Obj "model.config"];
    [Lit "Number of labels: "; Num 2];
    [Lit "Label mapping: "; Obj "model.config.id2label"];
    [Lit "Tracing wrapped PyTorch model..."];
    [Lit "Converting to Core ML..."];
    [Lit "Core ML model saved to: "; Str "BiomedicalNER.mlpackage"];
    [Lit "Tokenizer info saved:"];
    [Lit "- vocab.json (vocabulary mapping)"];
    [Lit "- labels.json (entity label mappings)"];
    [Lit "- special_tokens.json (special token info)"];
    [Lit "Error during conversion: ";
     Err (Sample.FileNotFoundError "BiomedicalNER.mlpackage")];
    [Lit "Make sure you have installed: torch, transformers, coremltools"] ].
Proof. vm_compute. reflexivity. Qed.





(** C2: whenever the conversion returns, the call [test_conversion()]
    raises [NameError], the top-level handler runs, and the run ends with
    the "Error during conversion" line and the installation hint. *)
Theorem success_still_reports_error (env : Env) (w : World) (m : MLModel) :
  result (convert_biomedical_ner_to_coreml env w) = Ok m ->
  ("test_conversion" ∉ (module_globals ++ builtins)%list) /\
  result (main env w) = Ok tt /\
  printed (main env w) =
    ([Lit "Starting biomedical NER model conversion..."]
     :: printed (convert_biomedical_ner_to_coreml env w)
     ++ [ [Lit "Conversion completed successfully!"];
          [Lit "Error during conversion: ";
           Err (Exn "NameError" "name 'test_conversion' is not defined")];
          [Lit "Make sure you have installed: torch, transformers, coremltools"] ])%list.
Proof.
  intros Hconv. destruct (main_run env w) as (Hres & Hprinted).
  split_and!; [|done|by rewrite Hprinted, Hconv].
  apply (bool_decide_eq_false_1 _). reflexivity.
Qed.

Lemma success_still_reports_error_witness :
  ("test_conversion" ∉ (module_globals ++ builtins)%list) /\
  result (main Sample.good_env Sample.empty_world) = Ok tt /\
  printed (main Sample.good_env Sample.empty_world) =
    ([Lit "Starting biomedical NER model conversion..."]
     :: printed (convert_biomedical_ner_to_coreml Sample.good_env
                   Sample.empty_world)
     ++ [ [Lit "Conversion completed successfully!"];
          [Lit "Error during conversion: ";
           Err (Exn "NameError" "name 'test_conversion' is not defined")];
          [Lit "Make sure you have installed: torch, transformers, coremltools"] ])%list.
Proof.
  destruct good_env_converts as (m & Hm).
  exact (success_still_reports_error Sample.good_env Sample.empty_world m Hm).
Defined.

End Containment.

(** ** The declared output of the converted package *)

Section OutputShape.

Lemma shape2_eq {A} (m : matrix A) (r c : nat) :
  shape2 m = [r; c] -> rows m = r /\ cols m = c.
Proof. unfold shape2. by intros [= -> ->]. Qed.

(** C3: under the tool chain's contract, the package the conversion returns
    declares one output, named "logits", of shape (1, 512, num_labels),
    with num_labels read from the loaded model's configuration. *)
Theorem converted_output_shape (env : Env) (w : World) (model : Model)
    (m : MLModel) :
  AutoModelForTokenClassification_from_pretrained env hub_name = Ok model ->
  toolchain_contract env model ->
  result (convert_biomedical_ner_to_coreml env w) = Ok m ->
  exists d,
    output_spec m = [d] /\
    tt_name d = "logits" /\
    tt_shape d = Some [1; 512; num_labels (config model)].
Proof.
  intros Hmodel [Hms Hrs Hts Hcs] Hconv.
  rewrite convert_result, Hmodel in Hconv.
  destruct (AutoTokenizer_from_pretrained env hub_name) as [tokenizer|];
    [|done].
  cbn [res_bind] in Hconv. cbv zeta in Hconv.
  destruct (torch_randint env (rng w) 0 (vocab_size tokenizer) 1
              max_sequence_length) as [[ids|] g] eqn:Hrand; [|done].
  cbn [res_bind fst snd] in Hconv.
  destruct (torch_jit_trace env (NERModelWrapper_forward model) ids
              (torch_ones 1 max_sequence_length)) as [traced|] eqn:Htrace;
    [|done].
  cbn [res_bind] in Hconv.
  destruct (ct_convert env traced input_types output_types "iOS18" "ALL")
    as [pkg|] eqn:Hpkg; [|done].
  cbn [res_bind] in Hconv.
  destruct (fs_write env (fs w) package_path (FPackage (add_metadata pkg)));
    [|done].
  cbn [res_bind] in Hconv.
  destruct (result (save_tokenizer_info _ _ _ _)); [|done].
  injection Hconv as <-.
  apply Hrs in Hrand. apply shape2_eq in Hrand as (Hrows & Hcols).
  apply Hts in Htrace as (out & Hout & Hsame).
  unfold NERModelWrapper_forward in Hout.
  destruct (forward model ids (torch_ones 1 max_sequence_length))
    as [outputs|] eqn:Hfwd; [|done].
  injection Hout as <-. apply Hms in Hfwd. rewrite Hrows, Hcols in Hfwd.
  apply Hcs in Hpkg as (xa & xb & out' & Ha & Hb & Hrun & Hspec).
  simpl in Ha, Hb. injection Ha as Har Hac. injection Hb as Hbr Hbc.
  assert (Hshape : shape3 out' = shape3 (logits outputs)).
  { apply (Hsame xa xb); [| |done]; unfold shape2; simpl; congruence. }
  unfold output_types in Hspec.
  apply Forall2_cons_inv_l in Hspec as (d & rest & (Hname & Hshp) & Hrest & Hos).
  apply Forall2_nil_inv_l in Hrest as ->.
  exists d. simpl in *. split_and!; [done|done|].
  by rewrite Hshp, Hshape, Hfwd.
Qed.

Lemma good_env_contract :
  toolchain_contract Sample.good_env Sample.tiny_model.
Proof.
  split.
  - intros ids mask out [= <-]. reflexivity.
  - intros g lo hi r c t g' [= <- _]. reflexivity.
  - intros a b tr Htr. simpl in Htr. injection Htr as <-.
    eexists. split; [reflexivity|].
    intros a' b' out' Ha Hb [= <-].
    unfold shape2 in Ha. injection Ha as Hr Hc. unfold shape3. simpl.
    by rewrite Hr, Hc.
  - intros tr ins outs target units pkg Hpkg. simpl in Hpkg.
    unfold Sample.simple_convert in Hpkg.
    destruct ins as [|ia [|ib [|]]]; try done.
    destruct (tt_shape ia) as [[|r [|c [|]]]|] eqn:Hia; try done.
    destruct (tt_shape ib) as [[|r' [|c' [|]]]|] eqn:Hib; try done.
    destruct (traced_forward tr _ _) as [out|] eqn:Hrun; [|done].
    injection Hpkg as <-.
    exists (Matrix r c (fun _ _ => 0%Z)), (torch_ones r' c'), out.
    simpl. rewrite Hia, Hib. split_and!; try done.
    clear. induction outs as [|o outs IH]; simpl; constructor; done.
Qed.

Lemma converted_output_shape_witness :
  exists m d,
    result (convert_biomedical_ner_to_coreml Sample.good_env
              Sample.empty_world) = Ok m /\
    output_spec m = [d] /\
    tt_name d = "logits" /\
    tt_shape d = Some [1; 512; num_labels (config Sample.tiny_model)].
Proof.
  destruct good_env_converts as (m & Hm).
  destruct (converted_output_shape Sample.good_env Sample.empty_world
              Sample.tiny_model m eq_refl good_env_contract Hm)
    as (d & Hd).
  exists m, d. split; [exact Hm|exact Hd].
Defined.

End OutputShape.

(** * Further properties of the script *)

(** ** The smoke test changes nothing *)

Section WorldPreserving.

Lemma wp_ret {A} (a : A) : world_preserving (mret a : Py A).
Proof. by intros w. Qed.

Lemma wp_lift {A} (r : Res A) : world_preserving (lift r).
Proof. by intros w. Qed.

Lemma wp_print (m : msg) : world_preserving (print m).
Proof. by intros w. Qed.

Lemma wp_read_file (env : Env) (path : string) :
  world_preserving (read_file env path).
Proof. by intros w. Qed.

Lemma wp_bind {A B} (m : Py A) (f : A -> Py B) :
  world_preserving m -> (forall a, world_preserving (f a)) ->
  world_preserving (m ≫= f).
Proof.
  intros Hm Hf w. rewrite run_bind. specialize (Hm w).
  destruct (result (m w)); simpl; [|done]. rewrite Hm. apply Hf.
Qed.

Lemma wp_try {A} (body : Py A) (handler : exn -> Py A) :
  world_preserving body -> (forall e, world_preserving (handler e)) ->
  world_preserving (try_except body handler).
Proof.
  intros Hb Hh w. unfold try_except. specialize (Hb w).
  destruct (result (body w)); simpl; [done|]. rewrite Hb. apply Hh.
Qed.

Lemma wp_token_loop id2label logits items acc :
  world_preserving (token_loop id2label logits items acc).
Proof.
  revert acc. induction items as [|[i [tok lid]] items IH]; intros acc.
  - apply wp_ret.
  - cbn [token_loop]. case_bool_decide; [apply IH|].
    apply wp_bind; [apply wp_lift|]. intros c.
    apply wp_bind; [apply wp_print|]. intros _.
    destruct (_ && _); apply IH.
Qed.

Lemma wp_print_entities ents : world_preserving (print_entities ents).
Proof.
  induction ents as [|[[tok lab] c] ents IH]; [apply wp_ret|].
  cbn [print_entities]. apply wp_bind; [apply wp_print|]. by intros _.
Qed.

Ltac wp_leaf :=
  first [ apply wp_lift | apply wp_print | apply wp_ret | apply wp_read_file
        | apply wp_token_loop | apply wp_print_entities ].
Ltac wp_step := apply wp_bind; [wp_leaf | intros ?].

Lemma wp_predict_and_decode model tokenizer id2label encoded ids mask :
  world_preserving (predict_and_decode model tokenizer id2label encoded ids mask).
Proof.
  unfold predict_and_decode. do 12 wp_step.
  match goal with |- world_preserving (match ?l with _ => _ end) =>
    destruct l end.
  - do 4 wp_step. wp_leaf.
  - wp_leaf.
Qed.

Lemma wp_smoke_test (env : Env) : world_preserving (smoke_test env).
Proof.
  unfold smoke_test, load_package, load_labels.
  apply wp_bind.
  { wp_step. match goal with |- world_preserving (match ?f with _ => _ end) =>
               destruct f end; wp_leaf. }
  intros model. wp_step. apply wp_bind.
  { wp_step. match goal with |- world_preserving (match ?f with _ => _ end) =>
               destruct f end; wp_leaf. }
  intros id2label. do 3 wp_step.
  apply wp_try; [apply wp_predict_and_decode|]. by intros e w.
Qed.

(** X1: the smoke test is read-only: however it ends, it leaves the files
    of the working directory and the random generator as they were. *)
Theorem smoke_test_read_only (env : Env) (w : World) :
  final (smoke_test env w) = w.
Proof. apply wp_smoke_test. Qed.

End WorldPreserving.

(** ** The top-level handler *)

Section TopLevel.

Lemma run_imports_run (env : Env) (names : list string) (w : World) :
  run_imports env names w =
  {| result := res_bind (res_mapM (import_module env) names) (fun _ => Ok tt);
     final := w; printed := [] |}.
Proof.
  induction names as [|name names IH]; [done|].
  cbn [run_imports res_mapM]. rewrite run_lift_bind.
  destruct (import_module env name) as [[]|e]; [|done].
  rewrite IH. cbn [res_bind]. by destruct (res_mapM (import_module env) names).
Qed.

(** X2: the script as a whole.  When one of the imports of lines 7-10
    fails, its exception is caught by nothing: the script fails with it
    before any of its [print] statements has run.  When the imports
    succeed, then whatever value or
    exception the library and file-system calls return, the run ends
    normally and its last two lines are the top-level handler's: no run
    ends on the success message. *)
Theorem every_run_ends_in_handler (env : Env) (w : World) :
  match res_mapM (import_module env) module_imports with
  | Raise e =>
      script env w = {| result := Raise e; final := w; printed := [] |}
  | Ok _ =>
      result (script env w) = Ok tt /\
      exists e before,
        printed (script env w) =
          (before
           ++ [ [Lit "Error during conversion: "; Err e];
                [Lit "Make sure you have installed: torch, transformers, coremltools"] ])%list
  end.
Proof.
  unfold script. rewrite run_bind, run_imports_run.
  destruct (res_mapM (import_module env) module_imports) as [imported|e];
    cbn [res_bind result final printed]; [|done].
  destruct (main_run env w) as (Hres & Hprinted). split; [done|].
  rewrite Hprinted.
  destruct (result (convert_biomedical_ner_to_coreml env w)) as [m|e].
  - exists (NameError "test_conversion"),
      ([Lit "Starting biomedical NER model conversion..."]
       :: printed (convert_biomedical_ner_to_coreml env w)
       ++ [[Lit "Conversion completed successfully!"]])%list.
    simpl. by rewrite <- app_assoc.
  - by exists e, ([Lit "Starting biomedical NER model conversion..."]
                 :: printed (convert_biomedical_ner_to_coreml env w)).
Qed.

(** A run without torch: the import of line 8 fails before the [try]
    statement is reached. *)
Example no_torch_run :
  script Sample.no_torch_env Sample.empty_world =
  {| result := Raise (Exn "ModuleNotFoundError" "No module named 'torch'");
     final := Sample.empty_world; printed := [] |}.
Proof. reflexivity. Qed.

(** X3: when the tokenizer or the model cannot be loaded, the run stops
    there: nothing is written, the random generator is not used, and the
    output is the start line, the loading line and the handler's two
    lines. *)
Theorem load_failure_aborts_untouched (env : Env) (w : World) (e : exn) :
  AutoTokenizer_from_pretrained env hub_name = Raise e \/
  (exists tokenizer, AutoTokenizer_from_pretrained env hub_name = Ok tokenizer /\
     AutoModelForTokenClassification_from_pretrained env hub_name = Raise e) ->
  main env w =
  {| result := Ok tt; final := w;
     printed :=
       [ [Lit "Starting biomedical NER model conversion..."];
         [Lit "Loading model: "; Str "d4data/biomedical-ner-all"];
         [Lit "Error during conversion: "; Err e];
         [Lit "Make sure you have installed: torch, transformers, coremltools"] ] |}.
Proof.
  intros Hload. unfold main, try_except.
  rewrite run_print_bind. cbn [result final printed].
  rewrite run_bind. unfold convert_biomedical_ner_to_coreml.
  rewrite run_print_bind. cbn [result final printed].
  rewrite run_lift_bind.
  destruct Hload as [Htok|(tokenizer & Htok & Hmodel)]; rewrite Htok.
  - reflexivity.
  - rewrite run_lift_bind, Hmodel. reflexivity.
Qed.

Lemma load_failure_aborts_untouched_witness :
  main Sample.offline_env Sample.empty_world =
  {| result := Ok tt; final := Sample.empty_world;
     printed :=
       [ [Lit "Starting biomedical NER model conversion..."];
         [Lit "Loading model: "; Str "d4data/biomedical-ner-all"];
         [Lit "Error during conversion: ";
          Err (Exn "OSError"
                 "cannot load tokenizer for 'd4data/biomedical-ner-all'")];
         [Lit "Make sure you have installed: torch, transformers, coremltools"] ] |}.
Proof.
  apply (load_failure_aborts_untouched Sample.offline_env Sample.empty_world).
  left. reflexivity.
Defined.

End TopLevel.

(** ** The files the run leaves behind *)

Section Files.

#[local] Existing Instance py_str_inj.

Lemma convert_final (env : Env) (w : World) (m : MLModel) :
  result (convert_biomedical_ner_to_coreml env w) = Ok m ->
  exists tokenizer model ids g traced pkg fs1,
    AutoTokenizer_from_pretrained env hub_name = Ok tokenizer /\
    AutoModelForTokenClassification_from_pretrained env hub_name = Ok model /\
    torch_randint env (rng w) 0 (vocab_size tokenizer) 1 max_sequence_length
      = (Ok ids, g) /\
    torch_jit_trace env (NERModelWrapper_forward model) ids
      (torch_ones 1 max_sequence_length) = Ok traced /\
    ct_convert env traced input_types output_types "iOS18" "ALL" = Ok pkg /\
    fs_write env (fs w) package_path (FPackage (add_metadata pkg)) = Ok fs1 /\
    m = add_metadata pkg /\
    result (save_tokenizer_info env tokenizer (config model)
              {| fs := fs1; rng := g |}) = Ok tt /\
    final (convert_biomedical_ner_to_coreml env w)
      = final (save_tokenizer_info env tokenizer (config model)
                 {| fs := fs1; rng := g |}).
Proof.
  intros Hconv. pose proof Hconv as Hres. rewrite convert_result in Hres.
  destruct (AutoTokenizer_from_pretrained env hub_name) as [tokenizer|] eqn:Htok;
    [|done].
  destruct (AutoModelForTokenClassification_from_pretrained env hub_name)
    as [model|] eqn:Hmodel; [|done].
  cbn [res_bind] in Hres. cbv zeta in Hres.
  destruct (torch_randint env (rng w) 0 (vocab_size tokenizer) 1
              max_sequence_length) as [[ids|] g] eqn:Hrand; [|done].
  cbn [res_bind fst snd] in Hres.
  destruct (torch_jit_trace env (NERModelWrapper_forward model) ids
              (torch_ones 1 max_sequence_length)) as [traced|] eqn:Htrace;
    [|done].
  cbn [res_bind] in Hres.
  destruct (ct_convert env traced input_types output_types "iOS18" "ALL")
    as [pkg|] eqn:Hpkg; [|done].
  cbn [res_bind] in Hres.
  destruct (fs_write env (fs w) package_path (FPackage (add_metadata pkg)))
    as [fs1|] eqn:Hwrite; [|done].
  cbn [res_bind] in Hres.
  destruct (result (save_tokenizer_info env tokenizer (config model)
                      {| fs := fs1; rng := g |})) as [[]|] eqn:Hsave; [|done].
  injection Hres as <-.
  exists tokenizer, model, ids, g, traced, pkg, fs1.
  split_and!; try done.
  unfold convert_biomedical_ner_to_coreml.
  rewrite run_print_bind. cbn [final]. rewrite run_lift_bind, Htok.
  rewrite run_lift_bind, Hmodel. rewrite !run_print_bind. cbn [final].
  rewrite run_bind. unfold randint at 1 2 3. rewrite Hrand.
  cbn [result final printed].
  rewrite run_print_bind. cbn [final]. rewrite run_lift_bind, Htrace.
  rewrite run_print_bind. cbn [final]. rewrite run_lift_bind, Hpkg.
  rewrite run_bind. unfold write_file at 1 2 3. cbn [fs rng]. rewrite Hwrite.
  cbn [result final printed]. rewrite run_print_bind. cbn [final].
  rewrite run_bind, Hsave. reflexivity.
Qed.


(** X4: the side files are not written atomically.  When [vocab.json] has
    been written and the write of [labels.json] fails, the exception leaves
    [save_tokenizer_info] at once: the directory is the one the failed
    write left behind ([vocab.json] is already written, [labels.json] may
    be truncated or half written), no later write is made, nothing is
    printed and the smoke test does not run. *)
Theorem labels_write_failure_is_partial (env : Env) (tokenizer : Tokenizer)
    (c : Config) (w : World) (fs1 : gmap string file) (e : exn) :
  fs_write env (fs w) "vocab.json" (FVocab (get_vocab tokenizer)) = Ok fs1 ->
  fs_write env fs1 "labels.json" (FLabels (json_dump_labels c)) = Raise e ->
  save_tokenizer_info env tokenizer c w =
  {| result := Raise e;
     final := {| fs := fs_write_failed env fs1 "labels.json"
                         (FLabels (json_dump_labels c));
                 rng := rng w |};
     printed := [] |}.
Proof.
  intros Hvocab Hlabels. unfold save_tokenizer_info.
  rewrite run_bind, write_side_files_run, Hvocab, Hlabels. reflexivity.
Qed.

Lemma labels_write_failure_is_partial_witness :
  save_tokenizer_info Sample.disk_full_env Sample.bert_tokenizer
    Sample.tiny_config Sample.empty_world =
  {| result := Raise (Exn "OSError" "No space left on device");
     final :=
       {| fs := <["labels.json" := FPartial]>
                  (<["vocab.json" := FVocab (get_vocab Sample.bert_tokenizer)]> ∅);
          rng := 0 |};
     printed := [] |}.
Proof.
  apply (labels_write_failure_is_partial Sample.disk_full_env
           Sample.bert_tokenizer Sample.tiny_config Sample.empty_world);
    reflexivity.
Defined.

(** The reload of line 162 on a list of pairs whose keys are decimal
    renderings of integers, each at most once. *)
Lemma load_fold_spec (kvs : list (string * string)) (acc : gmap Z string) :
  (forall k v, (k, v) ∈ kvs -> exists z, k = py_str z) ->
  NoDup kvs.*1 ->
  exists d,
    foldl (fun acc kv =>
             res_bind acc (fun d =>
             res_bind (py_int kv.1) (fun z => Ok (<[z := kv.2]> d))))
          (Ok acc) kvs = Ok d /\
    forall z v, d !! z = Some v <->
      (py_str z, v) ∈ kvs \/ ((py_str z ∉ kvs.*1) /\ acc !! z = Some v).
Proof.
  revert acc. induction kvs as [|[k v0] kvs IH]; intros acc Hkeys Hnodup.
  - exists acc. split; [done|]. intros z v. split.
    + intros Hz. right. split; [|done]. apply not_elem_of_nil.
    + intros [Hin|[_ Hz]]; [|done]. by apply elem_of_nil in Hin.
  - destruct (Hkeys k v0) as (z0 & ->); [apply elem_of_cons; by left|].
    apply NoDup_cons in Hnodup as (Hfresh & Hnodup). simpl in Hfresh.
    cbn [foldl res_bind fst snd]. rewrite py_int_py_str. cbn [res_bind].
    destruct (IH (<[z0 := v0]> acc)) as (d & Hd & Hspec); [|done|].
    { intros k v Hin. apply (Hkeys k v). apply elem_of_cons. by right. }
    exists d. split; [done|]. intros z v. rewrite Hspec.
    rewrite fmap_cons, !elem_of_cons. simpl.
    destruct (decide (z = z0)) as [->|Hne].
    + rewrite lookup_insert_eq. split.
      * intros [Hin|[_ [= <-]]]; [|by left; left].
        exfalso. apply Hfresh. apply list_elem_of_fmap.
        by exists (py_str z0, v).
      * intros [[[= <-]|Hin]|[Hnot _]].
        -- right. split; [done|reflexivity].
        -- exfalso. apply Hfresh. apply list_elem_of_fmap.
           by exists (py_str z0, v).
        -- exfalso. apply Hnot. by left.
    + rewrite lookup_insert_ne by done.
      assert (Hstr : py_str z <> py_str z0) by (intros Heq; by apply py_str_inj in Heq).
      split.
      * intros [Hin|[Hnot Hacc]]; [by left; right|].
        right. split; [|done]. intros [?|?]; done.
      * intros [[[= Heq _]|Hin]|[Hnot Hacc]]; [done|by left|].
        right. split; [|done]. intros ?. apply Hnot. by right.
Qed.

Lemma load_id2label_dump (c : Config) :
  load_id2label (json_dump_labels c) = Ok (id2label c).
Proof.
  unfold load_id2label.
  destruct (load_fold_spec (map_to_list (j_id2label (json_dump_labels c))) ∅)
    as (d & -> & Hspec).
  - intros k v Hin. apply elem_of_map_to_list in Hin. simpl in Hin.
    apply (lookup_kmap_Some py_str) in Hin as (z & -> & _). by exists z.
  - apply NoDup_fst_map_to_list.
  - f_equal. apply map_eq. intros z. apply option_eq. intros v.
    rewrite Hspec, elem_of_map_to_list, json_dump_labels_lookup.
    rewrite lookup_empty. split; [|by left]. by intros [?|[_ ?]].
Qed.

(** X5: reading back what was dumped gives the configuration's id2label
    table: the integer keys, written as decimal strings by [json.dump], are
    recovered by [int(k)]; no entry is lost or merged. *)
Theorem id2label_reload_roundtrip (c : Config) :
  load_id2label (json_dump_labels c) = Ok (id2label c).
Proof. apply load_id2label_dump. Qed.

(** With a file system that stores what is written, the side files end up
    on top of what was there. *)
Lemma write_side_files_stored (env : Env) (tokenizer : Tokenizer) (c : Config)
    (w : World) :
  (forall files path content,
     fs_write env files path content = Ok (<[path := content]> files)) ->
  write_side_files env tokenizer c w =
  {| result := Ok tt;
     final :=
       {| fs := <["special_tokens.json" := FSpecialTokens (special_tokens tokenizer)]>
                  (<["labels.json" := FLabels (json_dump_labels c)]>
                     (<["vocab.json" := FVocab (get_vocab tokenizer)]> (fs w)));
          rng := rng w |};
     printed := [ [Lit "Tokenizer info saved:"];
                  [Lit "- vocab.json (vocabulary mapping)"];
                  [Lit "- labels.json (entity label mappings)"];
                  [Lit "- special_tokens.json (special token info)"] ] |}.
Proof. intros Hstore. by rewrite write_side_files_run, !Hstore. Qed.

(** X6: with a file system that stores what is written, a conversion that
    returns leaves exactly four new files on top of the directory it found:
    the package it returns, the tokenizer's vocabulary, the label tables
    and the special tokens of the loaded tokenizer and model. *)
Theorem conversion_leaves_four_files (env : Env) (w : World) (m : MLModel) :
  (forall files path content,
     fs_write env files path content = Ok (<[path := content]> files)) ->
  result (convert_biomedical_ner_to_coreml env w) = Ok m ->
  exists tokenizer model,
    AutoTokenizer_from_pretrained env hub_name = Ok tokenizer /\
    AutoModelForTokenClassification_from_pretrained env hub_name = Ok model /\
    fs (final (convert_biomedical_ner_to_coreml env w)) =
      <["special_tokens.json" := FSpecialTokens (special_tokens tokenizer)]>
        (<["labels.json" := FLabels (json_dump_labels (config model))]>
           (<["vocab.json" := FVocab (get_vocab tokenizer)]>
              (<["BiomedicalNER.mlpackage" := FPackage m]> (fs w)))).
Proof.
  intros Hstore Hconv.
  destruct (convert_final env w m Hconv)
    as (tokenizer & model & ids & g & traced & pkg & fs1 & Htok & Hmodel & _
        & _ & _ & Hwrite & -> & _ & ->).
  exists tokenizer, model. split_and!; [done|done|].
  rewrite Hstore in Hwrite. injection Hwrite as <-.
  unfold save_tokenizer_info. rewrite run_bind.
  rewrite (write_side_files_stored env tokenizer (config model) _ Hstore).
  cbn [result final printed]. by rewrite wp_smoke_test.
Qed.

Lemma conversion_leaves_four_files_witness :
  exists m tokenizer model,
    result (convert_biomedical_ner_to_coreml Sample.good_env Sample.empty_world)
      = Ok m /\
    AutoTokenizer_from_pretrained Sample.good_env hub_name = Ok tokenizer /\
    AutoModelForTokenClassification_from_pretrained Sample.good_env hub_name
      = Ok model /\
    fs (final (convert_biomedical_ner_to_coreml Sample.good_env
                 Sample.empty_world)) =
      <["special_tokens.json" := FSpecialTokens (special_tokens tokenizer)]>
        (<["labels.json" := FLabels (json_dump_labels (config model))]>
           (<["vocab.json" := FVocab (get_vocab tokenizer)]>
              (<["BiomedicalNER.mlpackage" := FPackage m]>
                 (fs Sample.empty_world)))).
Proof.
  destruct good_env_converts as (m & Hm).
  destruct (conversion_leaves_four_files Sample.good_env Sample.empty_world m
              (fun _ _ _ => eq_refl) Hm) as (tokenizer & model & H).
  exists m, tokenizer, model. split; [exact Hm|exact H].
Defined.

(** X7: with a file system that stores what is written and reads it back,
    the label table the smoke test decodes with is the id2label table of
    the configuration that was just saved. *)
Theorem smoke_test_uses_saved_labels (env : Env) (tokenizer : Tokenizer)
    (c : Config) (w : World) :
  (forall files path content,
     fs_write env files path content = Ok (<[path := content]> files)) ->
  (forall files path content,
     files !! path = Some content -> fs_read env files path = Ok content) ->
  result (load_labels env (final (write_side_files env tokenizer c w)))
    = Ok (id2label c).
Proof.
  intros Hstore Hread. rewrite (write_side_files_stored env tokenizer c w Hstore).
  cbn [final]. unfold load_labels. rewrite result_read_bind. cbn [fs].
  rewrite (Hread _ "labels.json" (FLabels (json_dump_labels c))).
  - cbn [res_bind]. unfold lift. cbn [result]. apply load_id2label_dump.
  - rewrite lookup_insert_ne by done. apply lookup_insert_eq.
Qed.

Lemma smoke_test_uses_saved_labels_witness :
  result (load_labels Sample.good_env
            (final (write_side_files Sample.good_env Sample.bert_tokenizer
                      Sample.tiny_config Sample.empty_world)))
    = Ok (id2label Sample.tiny_config).
Proof.
  apply (smoke_test_uses_saved_labels Sample.good_env Sample.bert_tokenizer
           Sample.tiny_config Sample.empty_world).
  - intros files path content. reflexivity.
  - intros files path content Hl. simpl. unfold Sample.posix_read.
    rewrite Hl. reflexivity.
Defined.

End Files.

(** ** The predicted label and its confidence *)

Section Confidence.

Open Scope R_scope.

Lemma Rmax_monotone_map (f : R -> R) :
  (forall a b, a <= b -> f a <= f b) ->
  forall l a, fold_left Rmax (map f l) (f a) = f (fold_left Rmax l a).
Proof.
  intros Hmono. induction l as [|b l IH]; intros a; simpl; [done|].
  rewrite <- IH. f_equal. unfold Rmax.
  destruct (Rle_dec a b) as [Hab|Hab], (Rle_dec (f a) (f b)) as [Hf|Hf];
    try done.
  - exfalso. apply Hf. by apply Hmono.
  - apply Rle_antisym; [|done]. apply Hmono. lra.
Qed.

Lemma argmax_from_spec (l : list R) (best_i : nat) (best : R) (i : nat) :
  (Np.argmax_from best_i best i l = best_i /\ fold_left Rmax l best = best) \/
  (exists k, Np.argmax_from best_i best i l = (i + k)%nat /\
             l !! k = Some (fold_left Rmax l best)).
Proof.
  revert best_i best i. induction l as [|x l IH]; intros best_i best i; simpl.
  - by left.
  - destruct (Rlt_dec best x) as [Hlt|Hge].
    + rewrite Rmax_right by lra.
      destruct (IH i x (S i)) as [(-> & Hmax)|(k & -> & Hk)]; right.
      * exists 0%nat. rewrite Hmax. split; [lia|done].
      * exists (S k). split; [lia|done].
    + rewrite Rmax_left by lra.
      destruct (IH best_i best (S i)) as [(-> & Hmax)|(k & -> & Hk)].
      * by left.
      * right. exists (S k). split; [lia|done].
Qed.

(** The arg-max is a position of the maximum. *)
Lemma argmax_attains (x : list R) (j : nat) :
  Np.argmax x = Ok j -> exists m, Np.max x = Ok m /\ x !! j = Some m.
Proof.
  destruct x as [|a l]; [done|]. simpl. intros [= <-].
  exists (fold_left Rmax l a). split; [done|].
  destruct (argmax_from_spec l 0 a 1) as [(-> & ->)|(k & -> & Hk)]; done.
Qed.

Lemma res_mapM_lookup {X Y} (f : X -> Res Y) (l : list X) (r : list Y)
    (i : nat) (y : Y) :
  res_mapM f l = Ok r -> r !! i = Some y ->
  exists x, l !! i = Some x /\ f x = Ok y.
Proof.
  revert r i. induction l as [|a l IH]; intros r i; simpl.
  - intros [= <-]. done.
  - destruct (f a) as [b|] eqn:Hfa; simpl; [|done].
    destruct (res_mapM f l) as [bs|]; simpl; [|done].
    intros [= <-]. destruct i as [|i]; simpl.
    + intros [= <-]. by exists a.
    + intros Hi. by apply (IH bs).
Qed.

(** The scores and predicted label of a position the loop visits. *)
Lemma decode_position (logits0 : matrix R) (predicted_labels : list nat)
    (i label_id : nat) :
  argmax_last_axis logits0 = Ok predicted_labels ->
  predicted_labels !! i = Some label_id ->
  exists scores, matrix_row logits0 i = Ok scores /\
                 Np.argmax scores = Ok label_id.
Proof.
  unfold argmax_last_axis. case_decide; [done|]. intros Hall Hi.
  destruct (res_mapM_lookup _ _ _ _ _ Hall Hi) as (i' & Hseq & Hrow).
  apply lookup_seq in Hseq as (-> & _). simpl in Hrow.
  destruct (matrix_row logits0 i) as [scores|]; [|done]. by exists scores.
Qed.

Lemma softmax_component_monotone (m s : R) :
  0 < s -> forall a b, a <= b -> exp (a - m) / s <= exp (b - m) / s.
Proof.
  intros Hs a b Hab. apply Rmult_le_compat_r.
  - apply Rlt_le. by apply Rinv_0_lt_compat.
  - destruct Hab as [Hlt| ->]; [|lra]. apply Rlt_le, exp_increasing. lra.
Qed.

(** The largest softmax value is the value at the largest score. *)
Lemma softmax_max (a : R) (l : list R) :
  let m := fold_left Rmax l a in
  let s := Np.sum (map (fun xi => exp (xi - m)) (a :: l)) in
  softmax (a :: l) = Ok (map (fun xi => exp (xi - m) / s) (a :: l)) /\
  res_bind (softmax (a :: l)) Np.max = Ok (exp (m - m) / s) /\
  0 < s.
Proof.
  rewrite softmax_unfold. cbv zeta. rewrite map_map.
  remember (fold_left Rmax l a) as m eqn:Hm.
  pose proof (sum_exp_pos (fun xi => xi - m) (a :: l) ltac:(done)) as Hpos.
  cbv beta in Hpos.
  remember (Np.sum (map (fun xi => exp (xi - m)) (a :: l))) as s eqn:Hs.
  split_and!; [done| |done]. simpl. f_equal.
  rewrite (Rmax_monotone_map (fun xi => exp (xi - m) / s)
             (softmax_component_monotone m s Hpos) l a).
  by rewrite <- Hm.
Qed.

(** X8: the reported confidence is the softmax probability of the
    predicted label: the maximum of the softmax sits at the arg-max of the
    scores, although the two are computed separately. *)
Theorem confidence_is_predicted_probability (logits : tensor3)
    (logits0 : matrix R) (predicted_labels : list nat) (i label_id : nat) :
  tensor_first logits = Ok logits0 ->
  argmax_last_axis logits0 = Ok predicted_labels ->
  predicted_labels !! i = Some label_id ->
  exists scores p c,
    matrix_row logits0 i = Ok scores /\
    softmax scores = Ok p /\
    token_confidence logits i = Ok c /\
    p !! label_id = Some c.
Proof.
  intros Hfirst Hargmax Hi.
  destruct (decode_position logits0 predicted_labels i label_id Hargmax Hi)
    as (scores & Hrow & Hlid).
  destruct (argmax_attains scores label_id Hlid) as (m & Hm & Hat).
  destruct scores as [|a l]; [done|]. injection Hm as Hm.
  destruct (softmax_max a l) as (Hsoft & Hconf & _). cbv zeta in *.
  rewrite Hm in Hsoft, Hconf.
  eexists (a :: l), _, _. split_and!; [done|exact Hsoft| |].
  - unfold token_confidence. rewrite Hfirst. cbn [res_bind]. rewrite Hrow.
    cbn [res_bind]. exact Hconf.
  - rewrite list_lookup_fmap, Hat. reflexivity.
Qed.

Lemma confidence_is_predicted_probability_witness :
  exists scores p c,
    matrix_row Sample.one_class_logits0 1 = Ok scores /\
    softmax scores = Ok p /\
    token_confidence Sample.one_class_logits 1 = Ok c /\
    p !! 0%nat = Some c.
Proof.
  apply (confidence_is_predicted_probability Sample.one_class_logits
           Sample.one_class_logits0 [0; 0; 0]%nat 1%nat 0%nat); reflexivity.
Defined.

Lemma sum_le_length_max (p : list R) (c : R) :
  (forall v, v ∈ p -> v <= c) -> Np.sum p <= INR (length p) * c.
Proof.
  induction p as [|v p IH]; intros Hle.
  - simpl. lra.
  - cbn [length Np.sum fold_right]. rewrite S_INR.
    assert (v <= c) by (apply Hle, elem_of_cons; by left).
    assert (Np.sum p <= INR (length p) * c).
    { apply IH. intros u Hu. apply Hle, elem_of_cons. by right. }
    unfold Np.sum in *. lra.
Qed.

(** X9: with k classes the reported confidence is at least 1/k (and so
    positive); with a single class it is 1 whatever the score. *)
Theorem confidence_at_least_uniform (logits : tensor3) (logits0 : matrix R)
    (predicted_labels : list nat) (i label_id : nat) :
  tensor_first logits = Ok logits0 ->
  argmax_last_axis logits0 = Ok predicted_labels ->
  predicted_labels !! i = Some label_id ->
  exists c,
    token_confidence logits i = Ok c /\
    1 <= INR (dim2 logits) * c /\
    (dim2 logits = 1%nat -> c = 1).
Proof.
  intros Hfirst Hargmax Hi.
  destruct (decode_scores_nonempty logits0 predicted_labels i label_id
              Hargmax Hi) as (scores & Hrow & Hne).
  destruct (softmax_values scores Hne) as (p & Hp & Hlen & Hrange & Hsum).
  assert (Hk : length scores = dim2 logits).
  { apply tensor_first_ok in Hfirst as (_ & _ & Hcols).
    unfold matrix_row in Hrow. case_decide; [|done]. injection Hrow as <-.
    by rewrite length_map, length_seq. }
  destruct p as [|v p]; [destruct scores; [done|discriminate]|].
  exists (fold_left Rmax p v).
  assert (Hbound : 1 <= INR (dim2 logits) * fold_left Rmax p v).
  { rewrite <- Hk, <- Hlen, <- Hsum. apply sum_le_length_max.
    intros u Hu. apply elem_of_cons in Hu as [->|Hu].
    - apply fold_left_Rmax_ge.
    - by apply fold_left_Rmax_upper. }
  split_and!; [|done|].
  - unfold token_confidence. rewrite Hfirst. cbn [res_bind]. rewrite Hrow.
    cbn [res_bind]. by rewrite Hp.
  - intros H1. rewrite H1 in Hbound. simpl in Hbound.
    assert (fold_left Rmax p v <= 1) by apply Hrange, fold_left_Rmax_elem.
    lra.
Qed.

Lemma confidence_at_least_uniform_witness :
  exists c,
    token_confidence Sample.one_class_logits 1 = Ok c /\
    1 <= INR (dim2 Sample.one_class_logits) * c /\
    (dim2 Sample.one_class_logits = 1%nat -> c = 1).
Proof.
  apply (confidence_at_least_uniform Sample.one_class_logits
           Sample.one_class_logits0 [0; 0; 0]%nat 1%nat 0%nat); reflexivity.
Defined.

Lemma Rmax_shift (d : R) (l : list R) (a : R) :
  fold_left Rmax (map (fun xi => xi + d) l) (a + d) = fold_left Rmax l a + d.
Proof.
  apply (Rmax_monotone_map (fun xi => xi + d)). intros x y Hxy. lra.
Qed.

(** X10: adding the same constant to every score of a vector does not
    change what [softmax] returns (nor whether it raises). *)
Theorem softmax_shift_invariant (d : R) (x : list R) :
  softmax (map (fun xi => xi + d) x) = softmax x.
Proof.
  destruct x as [|a l]; [done|].
  change (map (fun xi => xi + d) (a :: l))
    with ((a + d) :: map (fun xi => xi + d) l).
  rewrite !softmax_unfold. cbv zeta. rewrite Rmax_shift.
  change ((a + d) :: map (fun xi => xi + d) l)
    with (map (fun xi => xi + d) (a :: l)).
  rewrite (map_map (fun xi => xi + d)).
  assert (Heq : map (fun xi => exp (xi + d - (fold_left Rmax l a + d))) (a :: l)
                = map (fun xi => exp (xi - fold_left Rmax l a)) (a :: l)).
  { apply map_ext. intros xi. f_equal. lra. }
  by rewrite Heq.
Qed.

End Confidence.

(** ** The report of the smoke test, line by line *)

Section Output.

Open Scope R_scope.

Lemma token_loop_functional (id2label : gmap Z string) (t : tensor3)
    (items : list (nat * (string * nat))) (acc : list entity) (w : World) :
  (0 < dim0 t)%nat -> (0 < dim2 t)%nat ->
  Forall (fun it => (it.1 < dim1 t)%nat) items ->
  token_loop id2label t items acc w =
  {| result := Ok (acc ++ omap (entity_of id2label t) items)%list;
     final := w;
     printed := omap (report_of id2label t) items |}.
Proof.
  intros H0 H2 Hall. revert acc.
  induction Hall as [|[i [tok lid]] items Hi Hall IH]; intros acc.
  - simpl. by rewrite app_nil_r.
  - simpl in Hi. cbn [token_loop omap list_omap]. unfold entity_of, report_of.
    cbn [fst snd]. case_bool_decide as Hskip; [apply IH|].
    destruct (token_confidence_total t i H0 Hi H2) as (c & Hc).
    rewrite run_lift_bind, Hc, run_print_bind.
    destruct (bool_decide _ && bool_decide _); rewrite IH; cbn [result final printed].
    + by rewrite <- app_assoc.
    + done.
Qed.

Lemma decode_loop_run (id2label : gmap Z string) (logits : tensor3)
    (logits0 : matrix R) (tokens : list string) (predicted_labels : list nat)
    (w : World) :
  tensor_first logits = Ok logits0 ->
  argmax_last_axis logits0 = Ok predicted_labels ->
  token_loop id2label logits (enumerate (zip tokens predicted_labels)) [] w =
  {| result := Ok (omap (entity_of id2label logits)
                     (enumerate (zip tokens predicted_labels)));
     final := w;
     printed := omap (report_of id2label logits)
                  (enumerate (zip tokens predicted_labels)) |}.
Proof.
  intros Hfirst Hargmax.
  apply tensor_first_ok in Hfirst as (H0 & Hrows & Hcols).
  apply argmax_last_axis_ok in Hargmax as (H2 & Hlen).
  rewrite token_loop_functional; [done|done|lia|].
  apply enumerate_zip_in_range. lia.
Qed.

(** X11: the loop is the list comprehension it looks like: one report line
    for every token outside the skip list, in sentence order, and the
    entities in sentence order, for the positions both [tokens] and the
    predicted labels cover. *)
Theorem decode_loop_in_order (id2label : gmap Z string) (logits : tensor3)
    (logits0 : matrix R) (tokens : list string) (predicted_labels : list nat)
    (w : World) :
  tensor_first logits = Ok logits0 ->
  argmax_last_axis logits0 = Ok predicted_labels ->
  token_loop id2label logits (enumerate (zip tokens predicted_labels)) [] w =
  {| result := Ok (omap (entity_of id2label logits)
                     (enumerate (zip tokens predicted_labels)));
     final := w;
     printed := omap (report_of id2label logits)
                  (enumerate (zip tokens predicted_labels)) |}.
Proof. apply decode_loop_run. Qed.

Lemma decode_loop_in_order_witness :
  token_loop ∅ Sample.one_class_logits
    (enumerate (zip Sample.sample_tokens [0; 0; 0]%nat)) [] Sample.empty_world =
  {| result := Ok (omap (entity_of ∅ Sample.one_class_logits)
                     (enumerate (zip Sample.sample_tokens [0; 0; 0]%nat)));
     final := Sample.empty_world;
     printed := omap (report_of ∅ Sample.one_class_logits)
                  (enumerate (zip Sample.sample_tokens [0; 0; 0]%nat)) |}.
Proof.
  apply (decode_loop_in_order ∅ Sample.one_class_logits
           Sample.one_class_logits0); reflexivity.
Defined.

Lemma print_entities_run (ents : list entity) (w : World) :
  print_entities ents w =
  {| result := Ok tt; final := w; printed := map entity_line ents |}.
Proof.
  induction ents as [|[[tok lab] c] ents IH]; [done|].
  cbn [print_entities]. rewrite run_print_bind, IH. reflexivity.
Qed.

(** X12: the output of the [try] block when every step succeeds: the shape
    line and the two header lines, the report, the number of entities, one
    line per entity, and the five "no high-confidence entities" lines
    exactly when no entity was collected. *)
Theorem successful_decode_output (model : MLModel) (tokenizer : Tokenizer)
    (id2label : gmap Z string) (encoded : Encoding)
    (input_ids attention_mask : matrix Z) (w : World)
    (prediction : gmap string tensor3) (logits : tensor3) (logits0 : matrix R)
    (predicted_labels : list nat) (ids0 : list Z) (tokens : list string) :
  predict model (predict_inputs input_ids attention_mask) = Ok prediction ->
  prediction !! "logits" = Some logits ->
  tensor_first logits = Ok logits0 ->
  argmax_last_axis logits0 = Ok predicted_labels ->
  matrix_row (enc_input_ids encoded) 0 = Ok ids0 ->
  convert_ids_to_tokens tokenizer ids0 = Ok tokens ->
  let items := enumerate (zip tokens predicted_labels) in
  let entities_found := omap (entity_of id2label logits) items in
  predict_and_decode model tokenizer id2label encoded input_ids attention_mask w =
  {| result := Ok tt;
     final := w;
     printed :=
       ([ [Lit "Prediction successful! Logits shape: "; Shape (shape3 logits)];
          [Lit (newline ++ "Token predictions:")];
          [Lit (string_times "-" 50)] ]
        ++ omap (report_of id2label logits) items
        ++ [ [Lit (newline ++ "Entities found: ");
              Num (Z.of_nat (length entities_found))] ]
        ++ map entity_line entities_found
        ++ match entities_found with
           | [] =>
               [ [Lit "  No high-confidence entities detected"];
                 [Lit "  This might indicate:"];
                 [Lit "  - Model needs fine-tuning on prescription text"];
                 [Lit "  - Confidence threshold is too high"];
                 [Lit "  - Text format differs from training data"] ]
           | _ :: _ => []
           end)%list |}.
Proof.
  intros Hpredict Hlogits Hfirst Hargmax Hrow Htokens items entities_found.
  unfold predict_and_decode. fold (predict_inputs input_ids attention_mask).
  rewrite run_lift_bind, Hpredict. rewrite run_lift_bind, Hlogits.
  rewrite run_print_bind. rewrite run_lift_bind, Hfirst.
  rewrite run_lift_bind, Hargmax. rewrite run_lift_bind, Hrow.
  rewrite run_lift_bind, Htokens. rewrite !run_print_bind.
  rewrite run_bind.
  rewrite (decode_loop_run id2label logits logits0 tokens predicted_labels
             w Hfirst Hargmax).
  cbn [result final printed]. fold items. fold entities_found.
  rewrite run_print_bind. rewrite run_bind, print_entities_run.
  cbn [result final printed].
  destruct entities_found; reflexivity.
Qed.

Lemma successful_decode_output_witness :
  let items := enumerate (zip Sample.sample_tokens [0; 0; 0]%nat) in
  let entities_found := omap (entity_of ∅ Sample.one_class_logits) items in
  predict_and_decode Sample.one_class_package Sample.bert_tokenizer ∅
    Sample.sample_encoding (enc_input_ids Sample.sample_encoding)
    (enc_attention_mask Sample.sample_encoding) Sample.empty_world =
  {| result := Ok tt;
     final := Sample.empty_world;
     printed :=
       ([ [Lit "Prediction successful! Logits shape: ";
           Shape (shape3 Sample.one_class_logits)];
          [Lit (newline ++ "Token predictions:")];
          [Lit (string_times "-" 50)] ]
        ++ omap (report_of ∅ Sample.one_class_logits) items
        ++ [ [Lit (newline ++ "Entities found: ");
              Num (Z.of_nat (length entities_found))] ]
        ++ map entity_line entities_found
        ++ match entities_found with
           | [] =>
               [ [Lit "  No high-confidence entities detected"];
                 [Lit "  This might indicate:"];
                 [Lit "  - Model needs fine-tuning on prescription text"];
                 [Lit "  - Confidence threshold is too high"];
                 [Lit "  - Text format differs from training data"] ]
           | _ :: _ => []
           end)%list |}.
Proof.
  apply (successful_decode_output Sample.one_class_package
           Sample.bert_tokenizer ∅ Sample.sample_encoding
           (enc_input_ids Sample.sample_encoding)
           (enc_attention_mask Sample.sample_encoding) Sample.empty_world
           (<["logits" := Sample.one_class_logits]> ∅)
           Sample.one_class_logits Sample.one_class_logits0 [0; 0; 0]%nat
           [101; 100; 102]%Z Sample.sample_tokens); reflexivity.
Defined.

(** X13: a prediction without a "logits" entry is contained: the [try]
    statement logs the [KeyError] with the three causes, prints nothing
    else, and ends normally. *)
Theorem missing_logits_is_logged (model : MLModel) (tokenizer : Tokenizer)
    (id2label : gmap Z string) (encoded : Encoding)
    (input_ids attention_mask : matrix Z) (w : World)
    (prediction : gmap string tensor3) :
  predict model (predict_inputs input_ids attention_mask) = Ok prediction ->
  prediction !! "logits" = None ->
  try_except
    (predict_and_decode model tokenizer id2label encoded input_ids attention_mask)
    prediction_failed w =
  {| result := Ok tt;
     final := w;
     printed := [ [Lit "Prediction failed: "; Err (Exn "KeyError" "'logits'")];
                  [Lit "This might indicate:"];
                  [Lit "- Input shape mismatch"];
                  [Lit "- Model conversion issues"];
                  [Lit "- Core ML compatibility problems"] ] |}.
Proof.
  intros Hpredict Hlogits. unfold try_except, predict_and_decode.
  fold (predict_inputs input_ids attention_mask).
  rewrite run_lift_bind, Hpredict. rewrite run_lift_bind, Hlogits.
  reflexivity.
Qed.

Lemma missing_logits_is_logged_witness :
  try_except
    (predict_and_decode Sample.no_logits_package Sample.bert_tokenizer ∅
       Sample.sample_encoding (enc_input_ids Sample.sample_encoding)
       (enc_attention_mask Sample.sample_encoding))
    prediction_failed Sample.empty_world =
  {| result := Ok tt;
     final := Sample.empty_world;
     printed := [ [Lit "Prediction failed: "; Err (Exn "KeyError" "'logits'")];
                  [Lit "This might indicate:"];
                  [Lit "- Input shape mismatch"];
                  [Lit "- Model conversion issues"];
                  [Lit "- Core ML compatibility problems"] ] |}.
Proof.
  apply (missing_logits_is_logged Sample.no_logits_package
           Sample.bert_tokenizer ∅ Sample.sample_encoding
           (enc_input_ids Sample.sample_encoding)
           (enc_attention_mask Sample.sample_encoding) Sample.empty_world ∅);
    reflexivity.
Defined.

(** X14: scores with an empty batch or with no class make the decoding
    raise after the success line has been printed: the output is
    "Prediction successful!" followed by "Prediction failed" ([IndexError]
    for an empty batch, otherwise the [ValueError] of the arg-max), and
    the [try] statement ends normally. *)
Theorem degenerate_logits_are_logged (model : MLModel) (tokenizer : Tokenizer)
    (id2label : gmap Z string) (encoded : Encoding)
    (input_ids attention_mask : matrix Z) (w : World)
    (prediction : gmap string tensor3) (logits : tensor3) :
  predict model (predict_inputs input_ids attention_mask) = Ok prediction ->
  prediction !! "logits" = Some logits ->
  dim0 logits = 0%nat \/ dim2 logits = 0%nat ->
  try_except
    (predict_and_decode model tokenizer id2label encoded input_ids attention_mask)
    prediction_failed w =
  {| result := Ok tt;
     final := w;
     printed :=
       [ [Lit "Prediction successful! Logits shape: "; Shape (shape3 logits)];
         [Lit "Prediction failed: ";
          Err (if decide (dim0 logits = 0%nat)
               then Exn "IndexError"
                      "index 0 is out of bounds for axis 0 with size 0"
               else Exn "ValueError" "attempt to get argmax of an empty sequence")];
         [Lit "This might indicate:"];
         [Lit "- Input shape mismatch"];
         [Lit "- Model conversion issues"];
         [Lit "- Core ML compatibility problems"] ] |}.
Proof.
  intros Hpredict Hlogits Hdegenerate. unfold try_except, predict_and_decode.
  fold (predict_inputs input_ids attention_mask).
  rewrite run_lift_bind, Hpredict. rewrite run_lift_bind, Hlogits.
  rewrite run_print_bind. rewrite run_lift_bind. unfold tensor_first.
  destruct (decide (dim0 logits = 0%nat)) as [H0|H0].
  - rewrite decide_False by lia. rewrite H0. reflexivity.
  - rewrite decide_True by lia. destruct Hdegenerate as [?|H2]; [done|].
    rewrite run_lift_bind. unfold argmax_last_axis. cbn [cols].
    rewrite decide_True by done. reflexivity.
Qed.

Lemma degenerate_logits_are_logged_witness :
  try_except
    (predict_and_decode Sample.zero_class_package Sample.bert_tokenizer ∅
       Sample.sample_encoding (enc_input_ids Sample.sample_encoding)
       (enc_attention_mask Sample.sample_encoding))
    prediction_failed Sample.empty_world =
  {| result := Ok tt;
     final := Sample.empty_world;
     printed :=
       [ [Lit "Prediction successful! Logits shape: ";
          Shape (shape3 Sample.zero_class_logits)];
         [Lit "Prediction failed: ";
          Err (if decide (dim0 Sample.zero_class_logits = 0%nat)
               then Exn "IndexError"
                      "index 0 is out of bounds for axis 0 with size 0"
               else Exn "ValueError" "attempt to get argmax of an empty sequence")];
         [Lit "This might indicate:"];
         [Lit "- Input shape mismatch"];
         [Lit "- Model conversion issues"];
         [Lit "- Core ML compatibility problems"] ] |}.
Proof.
  apply (degenerate_logits_are_logged Sample.zero_class_package
           Sample.bert_tokenizer ∅ Sample.sample_encoding
           (enc_input_ids Sample.sample_encoding)
           (enc_attention_mask Sample.sample_encoding) Sample.empty_world
           (<["logits" := Sample.zero_class_logits]> ∅)
           Sample.zero_class_logits); [reflexivity|reflexivity|by right].
Defined.

(** X15: the steps between the reload and the [try] statement are not
    contained either: once the package is loaded, an exception of the
    tokenizer reload, of reading labels.json, or of tokenizing the sample
    leaves the smoke test. *)
Theorem setup_failures_propagate (env : Env) (w : World) (model : MLModel)
    (e : exn) :
  fs_read env (fs w) package_path = Ok (FPackage model) ->
  AutoTokenizer_from_pretrained env hub_name = Raise e \/
  (exists tokenizer,
     AutoTokenizer_from_pretrained env hub_name = Ok tokenizer /\
     (fs_read env (fs w) "labels.json" = Raise e \/
      (exists l d, fs_read env (fs w) "labels.json" = Ok (FLabels l) /\
                   load_id2label l = Ok d /\
                   encode_padded tokenizer sample_text 512 = Raise e))) ->
  result (smoke_test env w) = Raise e.
Proof.
  intros Hpkg Hfail. rewrite smoke_test_result, Hpkg. cbn [res_bind].
  destruct Hfail as [->|(tokenizer & -> & Hrest)]; [done|]. cbn [res_bind].
  destruct Hrest as [Hr|(l & d & Hr & Hl & He)];
    rewrite Hr; cbn [res_bind]; [done|]. rewrite Hl. cbn [res_bind].
  by rewrite He.
Qed.

Lemma setup_failures_propagate_witness :
  result (smoke_test Sample.good_env Sample.package_only_world)
  = Raise (Sample.FileNotFoundError "labels.json").
Proof.
  apply (setup_failures_propagate Sample.good_env Sample.package_only_world
           Sample.one_class_package); [reflexivity|].
  right. exists Sample.bert_tokenizer. split; [reflexivity|].
  left. reflexivity.
Defined.

End Output.

(** ** What the conversion returns *)

Section Returned.

(** X16: whatever package the converter produced, the package the
    conversion returns carries the script's description, author, license
    and version, and the descriptions of its two inputs and its output;
    the tensor specifications and the prediction function are the
    converter's. *)
Theorem returned_package_metadata (env : Env) (w : World) (m : MLModel) :
  result (convert_biomedical_ner_to_coreml env w) = Ok m ->
  short_description m = "Biomedical Named Entity Recognition" /\
  author m = "d4data/biomedical-ner-all via Hugging Face" /\
  license m = "Check original model license" /\
  version m = "1.0" /\
  input_description m !! "input_ids" = Some "Tokenized input text (BERT tokens)" /\
  input_description m !! "attention_mask" = Some "Attention mask for input tokens" /\
  output_description m !! "logits" = Some "Raw logits for each token classification" /\
  exists traced pkg,
    ct_convert env traced input_types output_types "iOS18" "ALL" = Ok pkg /\
    input_spec m = input_spec pkg /\ output_spec m = output_spec pkg /\
    predict m = predict pkg.
Proof.
  intros Hconv.
  destruct (convert_final env w m Hconv)
    as (tokenizer & model & ids & g & traced & pkg & fs1 & _ & _ & _ & _
        & Hpkg & _ & -> & _ & _).
  split_and!; try done.
  - simpl. rewrite lookup_insert_ne by done. apply lookup_insert_eq.
  - simpl. apply lookup_insert_eq.
  - simpl. apply lookup_insert_eq.
  - by exists traced, pkg.
Qed.

Lemma returned_package_metadata_witness :
  exists m,
    result (convert_biomedical_ner_to_coreml Sample.good_env Sample.empty_world)
      = Ok m /\
    short_description m = "Biomedical Named Entity Recognition" /\
    author m = "d4data/biomedical-ner-all via Hugging Face" /\
    license m = "Check original model license" /\
    version m = "1.0" /\
    input_description m !! "input_ids" = Some "Tokenized input text (BERT tokens)" /\
    input_description m !! "attention_mask" = Some "Attention mask for input tokens" /\
    output_description m !! "logits" = Some "Raw logits for each token classification" /\
    exists traced pkg,
      ct_convert Sample.good_env traced input_types output_types "iOS18" "ALL"
        = Ok pkg /\
      input_spec m = input_spec pkg /\ output_spec m = output_spec pkg /\
      predict m = predict pkg.
Proof.
  destruct good_env_converts as (m & Hm).
  exists m. split; [exact Hm|].
  exact (returned_package_metadata Sample.good_env Sample.empty_world m Hm).
Defined.

End Returned.

(** ** Entities and report lines *)

Section EntitiesReported.

Lemma omap_length_le {X Y Z'} (f : X -> option Y) (g : X -> option Z')
    (l : list X) :
  (forall x y, f x = Some y -> is_Some (g x)) ->
  length (omap f l) <= length (omap g l).
Proof.
  intros Hfg. induction l as [|x l IH]; [done|]. cbn [omap list_omap].
  destruct (f x) as [y|] eqn:Hf.
  - destruct (Hfg x y Hf) as (z & ->). simpl. lia.
  - destruct (g x); simpl; lia.
Qed.

Lemma entity_of_reported id2label t it e :
  entity_of id2label t it = Some e ->
  report_of id2label t it = Some (token_line e.1.1 e.1.2 e.2).
Proof.
  unfold entity_of, report_of. case_bool_decide; [done|].
  destruct (token_confidence t it.1) as [c|]; [|done].
  cbv zeta. destruct (_ && _); [|done]. by intros [= <-].
Qed.

(** X18: every collected entity has its line in the report, and the
    number of entities in the summary never exceeds the number of report
    lines, which never exceeds the number of tokens. *)
Theorem entities_are_reported (id2label : gmap Z string) (logits : tensor3)
    (logits0 : matrix R) (tokens : list string) (predicted_labels : list nat)
    (w : World) :
  tensor_first logits = Ok logits0 ->
  argmax_last_axis logits0 = Ok predicted_labels ->
  let run := token_loop id2label logits
               (enumerate (zip tokens predicted_labels)) [] w in
  exists entities_found,
    result run = Ok entities_found /\
    (forall e, e ∈ entities_found ->
               token_line e.1.1 e.1.2 e.2 ∈ printed run) /\
    length entities_found <= length (printed run) /\
    length (printed run) <= length tokens.
Proof.
  intros Hfirst Hargmax run. unfold run.
  rewrite (decode_loop_run id2label logits logits0 tokens
             predicted_labels w Hfirst Hargmax).
  cbn [result printed]. eexists. split; [reflexivity|]. split_and!.
  - intros e He. apply list_elem_of_omap in He as (it & Hit & He).
    apply list_elem_of_omap. exists it. split; [done|].
    by apply entity_of_reported.
  - apply omap_length_le. intros it e He.
    rewrite (entity_of_reported _ _ _ _ He). by eexists.
  - transitivity (length (enumerate (zip tokens predicted_labels))).
    + clear. induction (enumerate (zip tokens predicted_labels)) as [|x l IH];
        [done|]. cbn [omap list_omap]. destruct (report_of _ _ x); simpl; lia.
    + unfold enumerate. rewrite length_zip_with, length_seq, length_zip_with. lia.
Qed.

Lemma entities_are_reported_witness :
  let run := token_loop ∅ Sample.one_class_logits
               (enumerate (zip Sample.sample_tokens [0; 0; 0]%nat)) []
               Sample.empty_world in
  exists entities_found,
    result run = Ok entities_found /\
    (forall e, e ∈ entities_found ->
               token_line e.1.1 e.1.2 e.2 ∈ printed run) /\
    length entities_found <= length (printed run) /\
    length (printed run) <= length Sample.sample_tokens.
Proof.
  apply (entities_are_reported ∅ Sample.one_class_logits
           Sample.one_class_logits0); reflexivity.
Defined.

End EntitiesReported.
